(** * Verification of the blog scraper (src/src/scraper.py)

    A shallow embedding of [BlogScraper]: the date normaliser
    ([_parse_date]), the recency predicate ([_is_recent_post]), the post
    extractor ([_extract_post_info]), the listing scanner
    ([_parse_generic_blog]) and the orchestrator ([scrape_all_companies]).

    Python strings are modelled as [string] (characters are 8-bit code
    points, case mapping is the ASCII one); exceptions are modelled by the
    [outcome] type; the clock and the network are explicit components of a
    [world] that is threaded through the effectful functions. *)

From Stdlib Require Import List String Ascii ZArith NArith Bool Lia.
From Stdlib Require Import DecimalString.
Import ListNotations.

Open Scope string_scope.
Open Scope Z_scope.

(** ** Exceptions *)

Inductive exn : Type :=
| ValueError
| OverflowError
| Timeout
| ConnectionError
| HTTPError (status_code : Z)
| InvalidSchema
| RuntimeError.

(** [requests.RequestException] and its subclasses. *)
Definition is_RequestException (e : exn) : bool :=
  match e with
  | Timeout | ConnectionError | HTTPError _ | InvalidSchema => true
  | _ => false
  end.

Definition is_ValueError (e : exn) : bool :=
  match e with ValueError => true | _ => false end.

Inductive outcome (A : Type) : Type :=
| Ret (a : A)
| Raise (e : exn).
Arguments Ret {A} a.
Arguments Raise {A} e.

Definition obind {A B} (m : outcome A) (k : A -> outcome B) : outcome B :=
  match m with
  | Ret a => k a
  | Raise e => Raise e
  end.

Notation "x <-! m ;; k" := (obind m (fun x => k))
  (at level 61, m at next level, right associativity).

(** ** Python strings *)

Module PyStr.

Definition code (c : ascii) : N := N_of_ascii c.

Definition in_range (lo hi c : ascii) : bool :=
  (code lo <=? code c)%N && (code c <=? code hi)%N.

(** [str.isspace] and the regex class [\s] on code points below 256. *)
Definition is_space (c : ascii) : bool :=
  let n := code c in
  ((9 <=? n) && (n <=? 13) || (28 <=? n) && (n <=? 32)
   || (n =? 133) || (n =? 160))%N.

(** The regex class [\d] on code points below 256. *)
Definition is_digit (c : ascii) : bool := in_range "0" "9" c.

Definition is_upper (c : ascii) : bool := in_range "A" "Z" c.
Definition is_lower (c : ascii) : bool := in_range "a" "z" c.
Definition is_alpha (c : ascii) : bool := is_upper c || is_lower c.

Definition lower_char (c : ascii) : ascii :=
  if is_upper c then ascii_of_N (code c + 32) else c.
Definition upper_char (c : ascii) : ascii :=
  if is_lower c then ascii_of_N (code c - 32) else c.

Fixpoint lower (s : string) : string :=
  match s with
  | EmptyString => EmptyString
  | String c r => String (lower_char c) (lower r)
  end.

(** Equality of characters under [re.IGNORECASE]. *)
Definition ci_eqb (a b : ascii) : bool :=
  Ascii.eqb (lower_char a) (lower_char b).

Fixpoint lstrip (s : string) : string :=
  match s with
  | EmptyString => EmptyString
  | String c r => if is_space c then lstrip r else s
  end.

Fixpoint rstrip (s : string) : string :=
  match s with
  | EmptyString => EmptyString
  | String c r =>
      match rstrip r with
      | EmptyString => if is_space c then EmptyString else String c EmptyString
      | r' => String c r'
      end
  end.

Definition strip (s : string) : string := rstrip (lstrip s).

(** Truth value of a [str]: non-empty. *)
Definition truthy (s : string) : bool :=
  match s with EmptyString => false | _ => true end.

(** [s[:n]]. *)
Fixpoint take (n : nat) (s : string) : string :=
  match n, s with
  | S n', String c r => String c (take n' r)
  | _, _ => EmptyString
  end.

(** [s[n:]]. *)
Fixpoint drop (n : nat) (s : string) : string :=
  match n, s with
  | S n', String _ r => drop n' r
  | _, _ => s
  end.

(** [s.startswith(p)]. *)
Fixpoint startswith (p s : string) : bool :=
  match p, s with
  | EmptyString, _ => true
  | String a p', String b s' => Ascii.eqb a b && startswith p' s'
  | _, _ => false
  end.

(** [p in s]. *)
Fixpoint contains (p s : string) : bool :=
  startswith p s ||
  match s with
  | EmptyString => false
  | String _ r => contains p r
  end.

Fixpoint mem_char (c : ascii) (s : string) : bool :=
  match s with
  | EmptyString => false
  | String a r => Ascii.eqb a c || mem_char c r
  end.

Fixpoint forallb_char (p : ascii -> bool) (s : string) : bool :=
  match s with
  | EmptyString => true
  | String a r => p a && forallb_char p r
  end.

(** [re.sub(r'\s+', ' ', s)]: every maximal run of whitespace becomes one
    space. *)
Fixpoint collapse_ws (s : string) : string :=
  match s with
  | EmptyString => EmptyString
  | String c r =>
      if is_space c then
        match r with
        | String c' _ => if is_space c' then collapse_ws r
                         else String " " (collapse_ws r)
        | EmptyString => String " " EmptyString
        end
      else String c (collapse_ws r)
  end.

(** [int(s)] for the decimal texts the date patterns capture: surrounding
    whitespace is ignored, anything but digits is a [ValueError]. *)
Fixpoint int_digits (acc : Z) (s : string) : outcome Z :=
  match s with
  | EmptyString => Ret acc
  | String c r =>
      if is_digit c then int_digits (10 * acc + (Z.of_N (code c) - 48)) r
      else Raise ValueError
  end.

Definition int (s : string) : outcome Z :=
  match strip s with
  | EmptyString => Raise ValueError
  | t => int_digits 0 t
  end.

(** [l.index(x)]. *)
Fixpoint index_from (i : Z) (x : string) (l : list string) : outcome Z :=
  match l with
  | [] => Raise ValueError
  | y :: r => if String.eqb y x then Ret i else index_from (i + 1) x r
  end.

Definition index (x : string) (l : list string) : outcome Z :=
  index_from 0 x l.

(** [s.replace(old, new)] for a non-empty [old]: the occurrences are taken
    from the left and do not overlap; [skip] counts the characters of an
    occurrence still to be passed over. *)
Fixpoint replace_aux (old new : string) (skip : nat) (s : string) : string :=
  match s with
  | EmptyString => EmptyString
  | String c r =>
      match skip with
      | S k => replace_aux old new k r
      | O =>
          if startswith old s
          then new ++ replace_aux old new (String.length old - 1) r
          else String c (replace_aux old new O r)
      end
  end.

Definition replace (old new s : string) : string := replace_aux old new O s.

(** [s.title()]: a letter after a letter is lower-cased, any other letter
    is upper-cased. *)
Fixpoint title_aux (previous_is_cased : bool) (s : string) : string :=
  match s with
  | EmptyString => EmptyString
  | String c r =>
      String (if previous_is_cased then lower_char c else upper_char c)
             (title_aux (is_alpha c) r)
  end.

Definition title (s : string) : string := title_aux false s.

End PyStr.

(** ** [datetime] *)

Module Datetime.

(** A naive [datetime.datetime]. *)
Record datetime : Type := mkDatetime {
  year : Z; month : Z; day : Z;
  hour : Z; minute : Z; second : Z; microsecond : Z
}.

Definition fields (d : datetime) : list Z :=
  [year d; month d; day d; hour d; minute d; second d; microsecond d].

Fixpoint lex_compare (a b : list Z) : comparison :=
  match a, b with
  | [], [] => Eq
  | [], _ :: _ => Lt
  | _ :: _, [] => Gt
  | x :: a', y :: b' =>
      match x ?= y with
      | Eq => lex_compare a' b'
      | c => c
      end
  end.

(** Naive datetimes compare as their field tuples. *)
Definition compare (a b : datetime) : comparison :=
  lex_compare (fields a) (fields b).

(** [a >= b] *)
Definition geb (a b : datetime) : bool :=
  match compare a b with Lt => false | _ => true end.

(** [a < b] *)
Definition ltb (a b : datetime) : bool :=
  match compare a b with Lt => true | _ => false end.

Definition is_leap (y : Z) : bool :=
  (y mod 4 =? 0) && (negb (y mod 100 =? 0) || (y mod 400 =? 0)).

Definition days_in_month (y m : Z) : Z :=
  if m =? 2 then (if is_leap y then 29 else 28)
  else if (m =? 4) || (m =? 6) || (m =? 9) || (m =? 11) then 30
  else 31.

Definition MINYEAR : Z := 1.
Definition MAXYEAR : Z := 9999.

Definition between (lo x hi : Z) : bool := (lo <=? x) && (x <=? hi).

(** The constructor [datetime(y, m, d, H, M, S, us)], which checks every
    field and raises [ValueError] on one out of range. *)
Definition new (y m d H M S us : Z) : outcome datetime :=
  if between MINYEAR y MAXYEAR && between 1 m 12
     && between 1 d (days_in_month y m)
     && between 0 H 23 && between 0 M 59 && between 0 S 59
     && between 0 us 999999
  then Ret (mkDatetime y m d H M S us)
  else Raise ValueError.

(** Days before January 1st of year [y], and before the first of month
    [m] in year [y] (the proleptic Gregorian ordinal of datetime.py). *)
Definition days_before_year (y : Z) : Z :=
  let y1 := y - 1 in y1 * 365 + y1 / 4 - y1 / 100 + y1 / 400.

Fixpoint days_before_month_aux (y : Z) (n : nat) : Z :=
  match n with
  | O => 0
  | S n' => days_before_month_aux y n' + days_in_month y (Z.of_nat n)
  end.

Definition days_before_month (y m : Z) : Z :=
  days_before_month_aux y (Z.to_nat (m - 1)).

Definition ymd2ord (y m d : Z) : Z :=
  days_before_year y + days_before_month y m + d.

Definition toordinal (dt : datetime) : Z :=
  ymd2ord (year dt) (month dt) (day dt).

Definition MAXORDINAL : Z := 3652059.

(** The month of the [n]-th day (from 0) of year [y], by linear search, and
    the days before it. *)
Fixpoint month_of_yday (y : Z) (n : Z) (m : Z) (fuel : nat) : Z * Z :=
  match fuel with
  | O => (m, n)
  | S f =>
      let dim := days_in_month y m in
      if n <? dim then (m, n) else month_of_yday y (n - dim) (m + 1) f
  end.

(** [_ord2ymd]: the date with ordinal [n] (1 is 0001-01-01). *)
Definition ord2ymd (n : Z) : Z * Z * Z :=
  let n0 := n - 1 in
  let n400 := n0 / 146097 in
  let r400 := n0 mod 146097 in
  let n100 := r400 / 36524 in
  let r100 := r400 mod 36524 in
  let n4 := r100 / 1461 in
  let r4 := r100 mod 1461 in
  let n1 := r4 / 365 in
  let r1 := r4 mod 365 in
  let y := n400 * 400 + 1 + n100 * 100 + n4 * 4 + n1 in
  if (n1 =? 4) || (n100 =? 4) then (y - 1, 12, 31)
  else let '(m, d0) := month_of_yday y r1 1 12 in (y, m, d0 + 1).

(** [dt - timedelta(days=n)]: [timedelta] accepts at most 999999999 days in
    magnitude, and the resulting date must exist; both fail with
    [OverflowError]. *)
Definition sub_days (dt : datetime) (n : Z) : outcome datetime :=
  if negb (between (-999999999) n 999999999) then Raise OverflowError
  else
    let o := toordinal dt - n in
    if between 1 o MAXORDINAL then
      let '(y, m, d) := ord2ymd o in
      Ret (mkDatetime y m d (hour dt) (minute dt) (second dt) (microsecond dt))
    else Raise OverflowError.

(** Zero-padded decimal of a non-negative number, [width] digits. *)
Fixpoint pad_dec (width : nat) (n : Z) : string :=
  match width with
  | O => EmptyString
  | S w => pad_dec w (n / 10) ++ String (ascii_of_N (Z.to_N (n mod 10) + 48)) EmptyString
  end.

(** [dt.isoformat()]. *)
Definition isoformat (d : datetime) : string :=
  pad_dec 4 (year d) ++ "-" ++ pad_dec 2 (month d) ++ "-" ++ pad_dec 2 (day d)
  ++ "T" ++ pad_dec 2 (hour d) ++ ":" ++ pad_dec 2 (minute d) ++ ":"
  ++ pad_dec 2 (second d)
  ++ (if microsecond d =? 0 then "" else "." ++ pad_dec 6 (microsecond d)).

End Datetime.
Export Datetime.


(** ** [datetime.strptime]

    The standard library compiles a format into a regular expression
    (with [re.IGNORECASE]) whose groups are the directives, takes the first
    match found by backtracking at the start of the text, rejects it when
    text remains, and builds the date from the groups.  The model covers
    the directives used by the scraper's formats; the month names are the
    English ones. *)

Module Strptime.
Import PyStr.

(** A backtracking matcher: every way to match a prefix, in the order the
    regex engine explores them, as (matched text, remaining text). *)
Definition matcher : Type := string -> list (string * string).

Definition one (p : ascii -> bool) : matcher := fun s =>
  match s with
  | String c r => if p c then [(String c EmptyString, r)] else []
  | EmptyString => []
  end.

Definition cat (m1 m2 : matcher) : matcher := fun s =>
  flat_map (fun '(a, r1) => map (fun '(b, r2) => (a ++ b, r2)) (m2 r1)) (m1 s).

Definition alt (m1 m2 : matcher) : matcher := fun s => (m1 s ++ m2 s)%list.

Definition none : matcher := fun _ => [].

Fixpoint alts (ms : list matcher) : matcher :=
  match ms with
  | [] => none
  | m :: r => alt m (alts r)
  end.

(** A literal text, ignoring case. *)
Fixpoint lit (p : string) : matcher := fun s =>
  match p with
  | EmptyString => [(EmptyString, s)]
  | String a p' =>
      match s with
      | String c r =>
          if ci_eqb a c
          then map (fun '(b, r2) => (String c b, r2)) (lit p' r)
          else []
      | EmptyString => []
      end
  end.

(** [\s+], greedy: the longest run first. *)
Fixpoint spaces (s : string) : list (string * string) :=
  match s with
  | String c r =>
      if is_space c
      then (map (fun '(b, r2) => (String c b, r2)) (spaces r)
            ++ [(String c EmptyString, r)])%list
      else []
  | EmptyString => []
  end.

Definition digit : matcher := one is_digit.
Definition rng (lo hi : ascii) : matcher := one (in_range lo hi).
Definition chr (c : ascii) : matcher := one (Ascii.eqb c).

Definition f_month : list string :=
  [""; "january"; "february"; "march"; "april"; "may"; "june"; "july";
   "august"; "september"; "october"; "november"; "december"].
Definition a_month : list string :=
  [""; "jan"; "feb"; "mar"; "apr"; "may"; "jun"; "jul"; "aug"; "sep"; "oct";
   "nov"; "dec"].

(** The regular expression of each directive ([TimeRE]). *)
Definition directive (k : ascii) : option matcher :=
  if Ascii.eqb k "Y" then Some (cat digit (cat digit (cat digit digit)))
  else if Ascii.eqb k "m" then
    Some (alts [cat (chr "1") (rng "0" "2"); cat (chr "0") (rng "1" "9");
                rng "1" "9"])
  else if Ascii.eqb k "d" then
    Some (alts [cat (chr "3") (rng "0" "1"); cat (rng "1" "2") digit;
                cat (chr "0") (rng "1" "9"); rng "1" "9";
                cat (chr " ") (rng "1" "9")])
  else if Ascii.eqb k "H" then
    Some (alts [cat (chr "2") (rng "0" "3"); cat (rng "0" "1") digit; digit])
  else if Ascii.eqb k "M" then
    Some (alts [cat (rng "0" "5") digit; digit])
  else if Ascii.eqb k "S" then
    Some (alts [cat (chr "6") (rng "0" "1"); cat (rng "0" "5") digit; digit])
  else if Ascii.eqb k "B" then
    Some (alts (map lit
      ["september"; "february"; "november"; "december"; "january";
       "october"; "august"; "march"; "april"; "june"; "july"; "may"]))
  else if Ascii.eqb k "b" then
    Some (alts (map lit
      ["jan"; "feb"; "mar"; "apr"; "may"; "jun"; "jul"; "aug"; "sep"; "oct";
       "nov"; "dec"]))
  else None.

Inductive item : Type :=
| Literal (c : ascii)
| Whitespace
| Directive (k : ascii) (m : matcher).

(** [TimeRE.pattern]: a run of whitespace in the format stands for [\s+],
    [%] introduces a directive, any other character stands for itself.  A
    [%] at the end or before an unknown letter is a [ValueError]. *)
Fixpoint pattern (format : string) : outcome (list item) :=
  match format with
  | EmptyString => Ret []
  | String c rest =>
      if Ascii.eqb c "%" then
        match rest with
        | EmptyString => Raise ValueError
        | String k rest' =>
            match directive k with
            | None => Raise ValueError
            | Some m => its <-! pattern rest' ;; Ret (Directive k m :: its)
            end
        end
      else if is_space c then
        match rest with
        | String c' _ =>
            if is_space c' then pattern rest
            else its <-! pattern rest ;; Ret (Whitespace :: its)
        | EmptyString => Ret [Whitespace]
        end
      else its <-! pattern rest ;; Ret (Literal c :: its)
  end.

(** The groups of a match: directive letter and captured text. *)
Definition found_dict : Type := list (ascii * string).

Definition match_item (it : item) (s : string)
  : list (found_dict * string) :=
  match it with
  | Literal c => map (fun '(_, r) => ([], r)) (lit (String c EmptyString) s)
  | Whitespace => map (fun '(_, r) => ([], r)) (spaces s)
  | Directive k m => map (fun '(t, r) => ([(k, t)], r)) (m s)
  end.

Fixpoint match_items (its : list item) (s : string)
  : list (found_dict * string) :=
  match its with
  | [] => [([], s)]
  | it :: rest =>
      flat_map (fun '(fd, r) =>
                  map (fun '(fd', r') => ((fd ++ fd')%list, r')) (match_items rest r))
               (match_item it s)
  end.

(** The fields collected from the groups, with their defaults. *)
Record parts : Type := mkParts {
  p_year : Z; p_month : Z; p_day : Z;
  p_hour : Z; p_minute : Z; p_second : Z
}.

Definition default_parts : parts := mkParts 1900 1 1 0 0 0.

Definition set_group (p : parts) (g : ascii * string) : outcome parts :=
  let '(k, t) := g in
  if Ascii.eqb k "Y" then
    v <-! int t ;; Ret (mkParts v (p_month p) (p_day p) (p_hour p) (p_minute p) (p_second p))
  else if Ascii.eqb k "m" then
    v <-! int t ;; Ret (mkParts (p_year p) v (p_day p) (p_hour p) (p_minute p) (p_second p))
  else if Ascii.eqb k "B" then
    v <-! index (lower t) f_month ;;
    Ret (mkParts (p_year p) v (p_day p) (p_hour p) (p_minute p) (p_second p))
  else if Ascii.eqb k "b" then
    v <-! index (lower t) a_month ;;
    Ret (mkParts (p_year p) v (p_day p) (p_hour p) (p_minute p) (p_second p))
  else if Ascii.eqb k "d" then
    v <-! int t ;; Ret (mkParts (p_year p) (p_month p) v (p_hour p) (p_minute p) (p_second p))
  else if Ascii.eqb k "H" then
    v <-! int t ;; Ret (mkParts (p_year p) (p_month p) (p_day p) v (p_minute p) (p_second p))
  else if Ascii.eqb k "M" then
    v <-! int t ;; Ret (mkParts (p_year p) (p_month p) (p_day p) (p_hour p) v (p_second p))
  else if Ascii.eqb k "S" then
    v <-! int t ;; Ret (mkParts (p_year p) (p_month p) (p_day p) (p_hour p) (p_minute p) v)
  else Ret p.

Fixpoint set_groups (p : parts) (fd : found_dict) : outcome parts :=
  match fd with
  | [] => Ret p
  | g :: r => p' <-! set_group p g ;; set_groups p' r
  end.

(** [datetime.strptime(data_string, format)]. *)
Definition strptime (data_string format : string) : outcome datetime :=
  its <-! pattern format ;;
  match match_items its data_string with
  | [] => Raise ValueError
  | (fd, rest) :: _ =>
      if truthy rest then Raise ValueError
      else
        p <-! set_groups default_parts fd ;;
        Datetime.new (p_year p) (p_month p) (p_day p)
                     (p_hour p) (p_minute p) (p_second p) 0
  end.

End Strptime.


(** ** [urllib.parse]

    [urlsplit], [urlparse], [urlunparse] and [urljoin] as the standard
    library defines them.  The validation of a bracketed host is limited
    to the pairing of the brackets. *)

Module Url.
Import PyStr.

Definition scheme_chars : string :=
  "abcdefghijklmnopqrstuvwxyzABCDEFGHIJKLMNOPQRSTUVWXYZ0123456789+-.".

Definition uses_relative : list string :=
  [""; "ftp"; "http"; "gopher"; "nntp"; "imap"; "wais"; "file"; "https";
   "shttp"; "mms"; "prospero"; "rtsp"; "rtspu"; "sftp"; "svn"; "svn+ssh";
   "ws"; "wss"].

Definition uses_netloc : list string :=
  [""; "ftp"; "http"; "gopher"; "nntp"; "telnet"; "imap"; "wais"; "file";
   "mms"; "https"; "shttp"; "snews"; "prospero"; "rtsp"; "rtspu"; "rsync";
   "svn"; "svn+ssh"; "sftp"; "nfs"; "git"; "git+ssh"; "ws"; "wss"].

Definition uses_params : list string :=
  [""; "ftp"; "hdl"; "prospero"; "http"; "imap"; "https"; "shttp"; "rtsp";
   "rtspu"; "sip"; "sips"; "mms"; "sftp"; "tel"].

Definition mem (x : string) (l : list string) : bool :=
  existsb (String.eqb x) l.

(** The C0 control characters and the space. *)
Definition is_c0_or_space (c : ascii) : bool := (code c <=? 32)%N.

Fixpoint lstrip_c0 (s : string) : string :=
  match s with
  | EmptyString => EmptyString
  | String c r => if is_c0_or_space c then lstrip_c0 r else s
  end.

Fixpoint rstrip_c0 (s : string) : string :=
  match s with
  | EmptyString => EmptyString
  | String c r =>
      match rstrip_c0 r with
      | EmptyString =>
          if is_c0_or_space c then EmptyString else String c EmptyString
      | r' => String c r'
      end
  end.

Definition is_unsafe (c : ascii) : bool :=
  (code c =? 9)%N || (code c =? 13)%N || (code c =? 10)%N.

(** Removal of tab, carriage return and line feed. *)
Fixpoint remove_unsafe (s : string) : string :=
  match s with
  | EmptyString => EmptyString
  | String c r =>
      if is_unsafe c then remove_unsafe r else String c (remove_unsafe r)
  end.

(** [s.partition(c)] when [c] occurs: the text before its first
    occurrence and the text after it. *)
Fixpoint partition (c : ascii) (s : string) : option (string * string) :=
  match s with
  | EmptyString => None
  | String a r =>
      if Ascii.eqb a c then Some (EmptyString, r)
      else match partition c r with
           | Some (pre, post) => Some (String a pre, post)
           | None => None
           end
  end.

(** The text before the first character satisfying [p], and the rest. *)
Fixpoint span_until (p : ascii -> bool) (s : string) : string * string :=
  match s with
  | EmptyString => (EmptyString, EmptyString)
  | String a r =>
      if p a then (EmptyString, s)
      else let '(pre, post) := span_until p r in (String a pre, post)
  end.

(** The scheme a URL starts with, lower-cased, and what follows its colon. *)
Definition split_scheme (url : string) : option (string * string) :=
  match partition ":" url with
  | Some (String c0 pre' as pre, post) =>
      if is_alpha c0 && forallb_char (fun c => mem_char c scheme_chars) pre
      then Some (lower pre, post)
      else None
  | _ => None
  end.

Record SplitResult : Type := mkSplit {
  s_scheme : string; s_netloc : string; s_path : string;
  s_query : string; s_fragment : string
}.

Definition is_netloc_delim (c : ascii) : bool :=
  Ascii.eqb c "/" || Ascii.eqb c "?" || Ascii.eqb c "#".

(** [urlsplit(url, scheme)]. *)
Definition urlsplit (url scheme : string) : outcome SplitResult :=
  let url := remove_unsafe (lstrip_c0 url) in
  let scheme := remove_unsafe (rstrip_c0 (lstrip_c0 scheme)) in
  let '(scheme, url) :=
    match split_scheme url with
    | Some (sch, rest) => (sch, rest)
    | None => (scheme, url)
    end in
  nu <-! (if startswith "//" url then
            let '(netloc, rest) := span_until is_netloc_delim (drop 2 url) in
            if xorb (mem_char "[" netloc) (mem_char "]" netloc)
            then Raise ValueError
            else Ret (netloc, rest)
          else Ret (EmptyString, url)) ;;
  let '(netloc, url) := nu in
  let '(url, fragment) :=
    match partition "#" url with
    | Some (u, f) => (u, f)
    | None => (url, EmptyString)
    end in
  let '(url, query) :=
    match partition "?" url with
    | Some (u, q) => (u, q)
    | None => (url, EmptyString)
    end in
  Ret (mkSplit scheme netloc url query fragment).

Record ParseResult : Type := mkParse {
  scheme : string; netloc : string; path : string;
  params : string; query : string; fragment : string
}.

(** The text up to and including the last [/], and the text after it. *)
Fixpoint rsplit_slash (s : string) : string * string :=
  match s with
  | EmptyString => (EmptyString, EmptyString)
  | String a r =>
      let '(h, t) := rsplit_slash r in
      if mem_char "/" r then (String a h, t)
      else if Ascii.eqb a "/" then (String a EmptyString, r)
      else (EmptyString, s)
  end.

Definition _splitparams (url : string) : string * string :=
  let '(h, t) := rsplit_slash url in
  match partition ";" t with
  | Some (a, b) => (h ++ a, b)
  | None => (url, EmptyString)
  end.

(** [urlparse(url, scheme)]. *)
Definition urlparse (url scheme_ : string) : outcome ParseResult :=
  r <-! urlsplit url scheme_ ;;
  let '(u, p) :=
    if mem (s_scheme r) uses_params && mem_char ";" (s_path r)
    then _splitparams (s_path r)
    else (s_path r, EmptyString) in
  Ret (mkParse (s_scheme r) (s_netloc r) u p (s_query r) (s_fragment r)).

(** [urlunsplit((scheme, netloc, url, query, fragment))]. *)
Definition urlunsplit (scheme netloc url query fragment : string) : string :=
  let url :=
    if truthy netloc
       || (truthy scheme && mem scheme uses_netloc
           && negb (startswith "//" url))
    then "//" ++ netloc
         ++ (if truthy url && negb (startswith "/" url) then "/" ++ url
             else url)
    else url in
  let url := if truthy scheme then scheme ++ ":" ++ url else url in
  let url := if truthy query then url ++ "?" ++ query else url in
  if truthy fragment then url ++ "#" ++ fragment else url.

Definition urlunparse (scheme netloc url params query fragment : string)
  : string :=
  urlunsplit scheme netloc
    (if truthy params then url ++ ";" ++ params else url) query fragment.

(** [s.split('/')]. *)
Fixpoint split_slash (s : string) : list string :=
  match s with
  | EmptyString => [EmptyString]
  | String a r =>
      if Ascii.eqb a "/" then EmptyString :: split_slash r
      else match split_slash r with
           | h :: t => String a h :: t
           | [] => [String a EmptyString]
           end
  end.

(** ['/'.join(l)]. *)
Fixpoint join_slash (l : list string) : string :=
  match l with
  | [] => EmptyString
  | [x] => x
  | x :: r => x ++ "/" ++ join_slash r
  end.

(** [segments[1:-1] = filter(None, segments[1:-1])]. *)
Definition drop_empty_middle (segments : list string) : list string :=
  match segments with
  | first :: (_ :: _) as r =>
      first :: (filter truthy (removelast r) ++ [last r EmptyString])%list
  | _ => segments
  end.

(** The loop over the segments: [..] pops, [.] is skipped. The resolved
    path is kept in reverse. *)
Fixpoint resolve (segments rev_resolved : list string) : list string :=
  match segments with
  | [] => rev_resolved
  | seg :: r =>
      if String.eqb seg ".." then resolve r (tl rev_resolved)
      else if String.eqb seg "." then resolve r rev_resolved
      else resolve r (seg :: rev_resolved)
  end.

(** [urljoin(base, url)]. *)
Definition urljoin (base url : string) : outcome string :=
  if negb (truthy base) then Ret url
  else if negb (truthy url) then Ret base
  else
    b <-! urlparse base "" ;;
    u <-! urlparse url (scheme b) ;;
    if negb (String.eqb (scheme u) (scheme b))
       || negb (mem (scheme u) uses_relative)
    then Ret url
    else if mem (scheme u) uses_netloc && truthy (netloc u)
    then Ret (urlunparse (scheme u) (netloc u) (path u) (params u)
                         (query u) (fragment u))
    else
      let netloc_ :=
        if mem (scheme u) uses_netloc then netloc b else netloc u in
      if negb (truthy (path u)) && negb (truthy (params u))
      then Ret (urlunparse (scheme u) netloc_ (path b) (params b)
                  (if truthy (query u) then query u else query b)
                  (fragment u))
      else
        let base_parts := split_slash (path b) in
        let base_parts :=
          if truthy (last base_parts EmptyString) then removelast base_parts
          else base_parts in
        let segments :=
          if startswith "/" (path u) then split_slash (path u)
          else drop_empty_middle (base_parts ++ split_slash (path u))%list in
        let resolved_path := rev (resolve segments []) in
        let last_seg := last segments EmptyString in
        let resolved_path :=
          if String.eqb last_seg "." || String.eqb last_seg ".."
          then (resolved_path ++ [EmptyString])%list else resolved_path in
        let joined := join_slash resolved_path in
        Ret (urlunparse (scheme u) netloc_
               (if truthy joined then joined else "/")
               (params u) (query u) (fragment u)).

(** A URL is absolute when it has a scheme: [urlsplit(url).scheme] is not
    empty. *)
Definition is_absolute (url : string) : bool :=
  match split_scheme (remove_unsafe (lstrip_c0 url)) with
  | Some _ => true
  | None => false
  end.

End Url.

(** ** BeautifulSoup trees and queries *)

Module Soup.
Import PyStr.

(** A parsed document: text nodes and tags with their attributes (raw
    values) and contents.  The document itself is the tag [[document]]. *)
#[warnings="-register-all"]
Inductive node : Type :=
| NavigableString (s : string)
| Tag (name : string) (attrs : list (string * string)) (contents : list node).

Definition is_tag (n : node) : bool :=
  match n with Tag _ _ _ => true | NavigableString _ => false end.

Definition name (n : node) : string :=
  match n with Tag nm _ _ => nm | NavigableString _ => EmptyString end.

Fixpoint lookup (k : string) (l : list (string * string)) : option string :=
  match l with
  | [] => None
  | (k', v) :: r => if String.eqb k' k then Some v else lookup k r
  end.

(** [tag.get(attr)]. *)
Definition get (attr : string) (n : node) : option string :=
  match n with
  | Tag _ attrs _ => lookup attr attrs
  | NavigableString _ => None
  end.

(** Every node below [n], in document order. *)
Fixpoint descendants (n : node) : list node :=
  match n with
  | NavigableString _ => []
  | Tag _ _ cs => flat_map (fun c => c :: descendants c) cs
  end.

Definition text_of (n : node) : string :=
  match n with NavigableString s => s | Tag _ _ _ => EmptyString end.

(** [tag.get_text()]: the texts below the tag, concatenated. *)
Definition get_text (n : node) : string :=
  fold_right (fun d acc => text_of d ++ acc) EmptyString (descendants n).

(** [tag.string]: the text of a tag whose only child is a text, or a tag
    which itself has such a [string]. *)
Fixpoint string_ (n : node) : option string :=
  match n with
  | NavigableString s => Some s
  | Tag _ _ [c] => string_ c
  | Tag _ _ _ => None
  end.

(** [tag.find_all(...)] and [tag.find(...)] with a criterion on tags. *)
Definition find_all (p : node -> bool) (n : node) : list node :=
  filter (fun d => is_tag d && p d) (descendants n).

Definition find (p : node -> bool) (n : node) : option node :=
  hd_error (find_all p n).

(** Criterion: the tag's name is one of [names]. *)
Definition named (names : list string) (n : node) : bool :=
  existsb (String.eqb (name n)) names.

(** Criterion [attr=True]: the attribute is present. *)
Definition has_attr (attr : string) (n : node) : bool :=
  match get attr n with Some _ => true | None => false end.

(** [re.compile('w1|w2|...', re.I).search(s)] for lower-case words. *)
Definition search_words_ci (words : list string) (s : string) : bool :=
  existsb (fun w => contains w (lower s)) words.

(** Criterion [class_=re.compile('w1|w2|...', re.I)].  The words hold no
    whitespace, so searching each class or the whole attribute value is
    the same. *)
Definition class_matches (words : list string) (n : node) : bool :=
  match get "class" n with
  | Some v => search_words_ci words v
  | None => false
  end.

(** [re.compile(r'.+').search(s)]: some character other than a newline. *)
Definition search_dot_plus (s : string) : bool :=
  negb (forallb_char (fun c => (code c =? 10)%N) s).

(** Criterion [string=re.compile(r'.+')]. *)
Definition string_matches_dot_plus (n : node) : bool :=
  match n with
  | Tag _ _ _ =>
      match string_ n with
      | Some s => search_dot_plus s
      | None => false
      end
  | NavigableString _ => false
  end.

(** The CSS selectors the scraper uses: a type selector [name] and the
    attribute selector [[attr*="value"]]. *)
Inductive css : Type :=
| TypeSel (nm : string)
| AttrContains (attr value : string).

Definition css_matches (sel : css) (n : node) : bool :=
  match sel with
  | TypeSel nm => String.eqb (name n) nm
  | AttrContains attr value =>
      match get attr n with
      | Some v => contains value v
      | None => false
      end
  end.

(** [tag.select(sel)] and [tag.select_one(sel)]. *)
Definition select (sel : css) (n : node) : list node :=
  find_all (css_matches sel) n.

Definition select_one (sel : css) (n : node) : option node :=
  hd_error (select sel n).

End Soup.

(** ** The world: clock, network, sleeping *)

Module World.

(** What [requests] gives back for a request that got an answer. *)
Record response : Type := mkResponse {
  status_code : Z;
  content : string
}.

(** The clock gives the successive readings of [datetime.now()]; the
    network gives, for the i-th request sent, what [session.get] does on
    a URL; the pause gives, for the i-th wait asked of the operating
    system, what the wait of so many nanoseconds does: it returns, or
    fails as the platform decides.  [ticks], [sent] and [naps] count the
    readings, the requests and the waits. *)
Record world : Type := mkWorld {
  clock : nat -> datetime;
  ticks : nat;
  network : nat -> string -> outcome response;
  sent : nat;
  naps : nat;
  pause : nat -> Z -> outcome unit
}.

Definition M (A : Type) : Type := world -> outcome A * world.

Definition ret {A} (a : A) : M A := fun w => (Ret a, w).

Definition raise {A} (e : exn) : M A := fun w => (Raise e, w).

Definition bind {A B} (m : M A) (k : A -> M B) : M B := fun w =>
  match m w with
  | (Ret a, w') => k a w'
  | (Raise e, w') => (Raise e, w')
  end.

Definition lift {A} (o : outcome A) : M A := fun w => (o, w).

(** [try: m  except Exception as e: handler e]. *)
Definition try_except {A} (m : M A) (handler : exn -> M A) : M A := fun w =>
  match m w with
  | (Ret a, w') => (Ret a, w')
  | (Raise e, w') => handler e w'
  end.

(** [datetime.now()]. *)
Definition datetime_now : M datetime := fun w =>
  (Ret (clock w (ticks w)),
   mkWorld (clock w) (S (ticks w)) (network w) (sent w) (naps w) (pause w)).

(** [session.get(url, timeout=10)]. *)
Definition session_get (url : string) : M response := fun w =>
  (network w (sent w) url,
   mkWorld (clock w) (ticks w) (network w) (S (sent w)) (naps w) (pause w)).

(** The argument of [time.sleep], as the interpreter reads a number of
    seconds: rounded to nanoseconds, away from zero, or a float that is no
    number, or an infinite one. *)
Inductive seconds : Type :=
| Nanoseconds (n : Z)
| NaN
| Infinity.

Definition PyTime_MIN : Z := - 2 ^ 63.
Definition PyTime_MAX : Z := 2 ^ 63 - 1.

(** The timeout [time.sleep] computes before it waits: a float that is no
    number is a [ValueError], a time that does not fit the 64-bit count of
    nanoseconds an [OverflowError], a negative one a [ValueError]. *)
Definition timeout_of (secs : seconds) : outcome Z :=
  match secs with
  | NaN => Raise ValueError
  | Infinity => Raise OverflowError
  | Nanoseconds n =>
      if (n <? PyTime_MIN) || (PyTime_MAX <? n) then Raise OverflowError
      else if n <? 0 then Raise ValueError
      else Ret n
  end.

(** [time.sleep(secs)]: the checks of the argument, then the wait. *)
Definition time_sleep (secs : seconds) : M unit := fun w =>
  match timeout_of secs with
  | Raise e => (Raise e, w)
  | Ret n =>
      (pause w (naps w) n,
       mkWorld (clock w) (ticks w) (network w) (sent w) (S (naps w))
               (pause w))
  end.

(** [response.raise_for_status()]. *)
Definition raise_for_status (r : response) : M unit :=
  if (400 <=? status_code r) && (status_code r <? 600)
  then raise (HTTPError (status_code r))
  else ret tt.

End World.

Notation "x <- m ;; k" := (World.bind m (fun x => k))
  (at level 61, m at next level, right associativity).

(** ** Python dictionaries, in insertion order *)

Module Dict.

Definition dict (V : Type) : Type := list (string * V).

(** [d[k] = v]: an existing key keeps its place. *)
Fixpoint set {V} (k : string) (v : V) (d : dict V) : dict V :=
  match d with
  | [] => [(k, v)]
  | (k', v') :: r =>
      if String.eqb k' k then (k', v) :: r else (k', v') :: set k v r
  end.

Definition keys {V} (d : dict V) : list string := map fst d.

Fixpoint get {V} (k : string) (d : dict V) : option V :=
  match d with
  | [] => None
  | (k', v) :: r => if String.eqb k' k then Some v else get k r
  end.

End Dict.

(** ** The scraper *)

Module BlogScraper.
Import PyStr Soup World.

(** A post dictionary, with the keys of the source. *)
Record post : Type := mkPost {
  title : string;
  url : string;
  date : option datetime;
  summary : string;
  company : string;
  scraped_at : string
}.

(** [_is_recent_post].  A [datetime] is always true as a condition, so
    [not post_date] holds for [None] only. *)
Definition _is_recent_post (post_date : option datetime)
                           (cutoff_date : datetime) : bool :=
  match post_date with
  | None => true
  | Some d => Datetime.geb d cutoff_date
  end.

Definition date_formats : list string :=
  ["%Y-%m-%d";
   "%Y-%m-%dT%H:%M:%S";
   "%Y-%m-%dT%H:%M:%SZ";
   "%B %d, %Y";
   "%b %d, %Y";
   "%d %B %Y";
   "%d %b %Y";
   "%m/%d/%Y";
   "%d/%m/%Y"].

(** The loop of [_parse_date]: the first format [strptime] accepts; a
    [ValueError] moves on to the next one, any other exception escapes. *)
Fixpoint try_formats (date_text : string) (formats : list string)
  : outcome (option datetime) :=
  match formats with
  | [] => Ret None
  | fmt :: rest =>
      match Strptime.strptime date_text fmt with
      | Ret d => Ret (Some d)
      | Raise e =>
          if is_ValueError e then try_formats date_text rest else Raise e
      end
  end.

(** [_parse_date]. *)
Definition _parse_date (date_text : string) : outcome (option datetime) :=
  if negb (truthy date_text) then Ret None
  else try_formats (strip date_text) date_formats.

Definition title_selectors : list (list string + css) :=
  [inl ["h1"; "h2"; "h3"; "h4"];
   inl ["a"];
   inr (AttrContains "class" "title");
   inr (AttrContains "class" "headline")].

(** The loop over [title_selectors]: [title_elem] is assigned at every
    turn and the loop stops at the first element with some text. *)
Fixpoint title_loop (element : node) (sels : list (list string + css))
                    (title_elem : option node) : option node :=
  match sels with
  | [] => title_elem
  | selectors :: rest =>
      let title_elem :=
        match selectors with
        | inl names => find (named names) element
        | inr sel => select_one sel element
        end in
      match title_elem with
      | Some t =>
          if truthy (strip (get_text t)) then title_elem
          else title_loop element rest title_elem
      | None => title_loop element rest title_elem
      end
  end.

Definition date_words : list string := ["date"; "time"; "published"].
Definition summary_words : list string := ["summary"; "excerpt"; "description"].

(** The element the link is read from: the title element when it is an
    anchor, else the first anchor with an [href]. *)
Definition link_element (element : node) (title_elem : option node)
  : option node :=
  match title_elem with
  | Some t =>
      if String.eqb (name t) "a" then title_elem
      else find (fun n => named ["a"] n && has_attr "href" n) element
  | None => find (fun n => named ["a"] n && has_attr "href" n) element
  end.

Definition link_of (link_elem : option node) (base_url : string)
  : outcome string :=
  match link_elem with
  | Some l =>
      match get "href" l with
      | Some href =>
          if truthy href then Url.urljoin base_url href else Ret base_url
      | None => Ret base_url
      end
  | None => Ret base_url
  end.

Definition summary_element (element : node) : option node :=
  match find (fun n => named ["p"; "div"] n && class_matches summary_words n)
             element with
  | Some e => Some e
  | None => find (named ["p"]) element
  end.

(** [_extract_post_info]. *)
Definition _extract_post_info (element : node) (base_url company_ : string)
  : M (option post) :=
  try_except
    (let title_elem := title_loop element title_selectors None in
     let title_ :=
       match title_elem with
       | Some t => strip (get_text t)
       | None => "No title found"
       end in
     let title_ := strip (collapse_ws title_) in
     let link_elem := link_element element title_elem in
     link <- lift (link_of link_elem base_url) ;;
     let date_elem :=
       find (fun n => named ["time"; "span"; "div"] n
                      && class_matches date_words n) element in
     post_date <-
       lift (match date_elem with
             | Some de =>
                 let date_text :=
                   match get "datetime" de with
                   | Some v => if truthy v then v else strip (get_text de)
                   | None => strip (get_text de)
                   end in
                 _parse_date date_text
             | None => Ret None
             end) ;;
     let summary_elem := summary_element element in
     let summary_ :=
       match summary_elem with
       | Some se => take 200 (strip (get_text se)) ++ "..."
       | None => "No summary available"
       end in
     now <- datetime_now ;;
     ret (Some (mkPost title_ link post_date summary_ company_
                       (Datetime.isoformat now))))
    (fun _ => ret None).

Definition selectors : list css :=
  [TypeSel "article";
   AttrContains "class" "post";
   AttrContains "class" "article";
   AttrContains "class" "story";
   AttrContains "class" "entry";
   AttrContains "class" "item";
   AttrContains "class" "card"].

(** The loop over [selectors]: the first selector with a match gives the
    post elements, at most 15 of them. *)
Fixpoint select_post_elements (soup : node) (sels : list css) : list node :=
  match sels with
  | [] => []
  | selector :: rest =>
      match select selector soup with
      | [] => select_post_elements soup rest
      | elements => firstn 15 elements
      end
  end.

Definition fallback_elements (soup : node) : list node :=
  firstn 10 (find_all (fun n => named ["div"] n && string_matches_dot_plus n)
                      soup).

Definition post_elements_of (soup : node) : list node :=
  match select_post_elements soup selectors with
  | [] => fallback_elements soup
  | post_elements => post_elements
  end.

(** The test of the noise filter: [post and post.get('title') and
    len(post['title']) > 10]. *)
Definition passes_noise_filter (p : option post) : bool :=
  match p with
  | Some p => truthy (title p) && (10 <? String.length (title p))%nat
  | None => false
  end.

(** The loop over the post elements.  [posts] is the list built so far; an
    exception leaves the loop and keeps what has been appended. *)
Fixpoint for_elements (elements : list node) (base_url company_ : string)
    (cutoff_date : datetime) (posts : list post)
  : world -> (list post * option exn) * world :=
  fun w =>
    match elements with
    | [] => ((posts, None), w)
    | element :: rest =>
        match _extract_post_info element base_url company_ w with
        | (Ret p, w') =>
            let posts' :=
              match p with
              | Some p' =>
                  if passes_noise_filter p
                     && _is_recent_post (date p') cutoff_date
                  then (posts ++ [p'])%list else posts
              | None => posts
              end in
            for_elements rest base_url company_ cutoff_date posts' w'
        | (Raise e, w') => ((posts, Some e), w')
        end
    end.

(** The default of [rate_limit_delay] in [__init__]: [1.0]. *)
Definition default_rate_limit_delay : seconds := Nanoseconds 1000000000.

Section Scraper.

(** [BeautifulSoup(html_content, 'html.parser')]. *)
Variable html_parser : string -> outcome node.

(** [_parse_generic_blog]. *)
Definition _parse_generic_blog (html_content base_url : string)
                               (cutoff_date : datetime) : M (list post) :=
  fun w =>
    match
      (soup <-! html_parser html_content ;;
       u <-! Url.urlparse base_url "" ;;
       Ret (soup, PyStr.title (replace "www." "" (Url.netloc u))))
    with
    | Raise _ => (Ret [], w)
    | Ret (soup, company_) =>
        let '((posts, _), w') :=
          for_elements (post_elements_of soup) base_url company_
                       cutoff_date [] w in
        (Ret posts, w')
    end.

(** [_make_request]. *)
Definition _make_request (url_ : string) : M (option response) :=
  try_except
    (response <- session_get url_ ;;
     _ <- raise_for_status response ;;
     ret (Some response))
    (fun _ => ret None).

(** A site configuration: its URL and its parser. *)
Record config : Type := mkConfig {
  c_url : string;
  c_parser : string -> string -> datetime -> M (list post)
}.

(** [_scrape_company_blog]. *)
Definition _scrape_company_blog (company_name url_ : string)
    (parser_func : string -> string -> datetime -> M (list post))
    (cutoff_date : datetime) : M (list post) :=
  try_except
    (response <- _make_request url_ ;;
     match response with
     | None => ret []
     | Some r => parser_func (content r) url_ cutoff_date
     end)
    (fun e => if is_RequestException e then ret [] else ret []).

(** [self.rate_limit_delay], the argument of [__init__]. *)
Variable rate_limit_delay : seconds.

(** The loop of [scrape_all_companies] over the configured sites.  The
    call of [time.sleep] stands after the [try] statement: an exception it
    raises leaves the loop and the function. *)
Fixpoint for_companies (companies : Dict.dict config)
    (cutoff_date : datetime) (results : Dict.dict (list post))
  : M (Dict.dict (list post)) :=
  match companies with
  | [] => ret results
  | (company_name, cfg) :: rest =>
      results' <-
        try_except
          (posts <- _scrape_company_blog company_name (c_url cfg)
                      (c_parser cfg) cutoff_date ;;
           ret (Dict.set company_name posts results))
          (fun _ => ret (Dict.set company_name [] results)) ;;
      _ <- time_sleep rate_limit_delay ;;
      for_companies rest cutoff_date results'
  end.

(** [scrape_all_companies], for a scraper whose sites are [companies]. *)
Definition scrape_all_companies (companies : Dict.dict config)
    (days_back : Z) : M (Dict.dict (list post)) :=
  now <- datetime_now ;;
  cutoff_date <- lift (Datetime.sub_days now days_back) ;;
  for_companies companies cutoff_date [].

(** The sites configured in [__init__]. *)
Definition companies : Dict.dict config :=
  [("TechCrunch AI",
    mkConfig "https://techcrunch.com/category/artificial-intelligence/"
             _parse_generic_blog);
   ("VentureBeat AI",
    mkConfig "https://venturebeat.com/ai/" _parse_generic_blog);
   ("The Verge AI",
    mkConfig "https://www.theverge.com/ai-artificial-intelligence"
             _parse_generic_blog);
   ("Ars Technica",
    mkConfig "https://arstechnica.com/tag/artificial-intelligence/"
             _parse_generic_blog);
   ("MIT Technology Review",
    mkConfig "https://www.technologyreview.com/topic/artificial-intelligence/"
             _parse_generic_blog);
   ("AI News",
    mkConfig "https://www.artificialintelligence-news.com/"
             _parse_generic_blog)].

End Scraper.

End BlogScraper.

(** ** The report generator

    [report_generator.py] turns the dictionary returned by the scraper into
    a Markdown text.  [_build_report_content] appends entries to a list
    and joins them with line feeds. *)

Module ReportGenerator.
Import PyStr BlogScraper.

(** The values a post dictionary holds: [None], a [str] or a
    [datetime]. *)
Inductive value : Type :=
| VNone
| VStr (s : string)
| VDatetime (d : datetime).

(** The truth value of a value in a condition. *)
Definition truth (v : value) : bool :=
  match v with
  | VNone => false
  | VStr s => truthy s
  | VDatetime _ => true
  end.

(** [str(n)] of an [int]. *)
Definition str_int (n : Z) : string := NilZero.string_of_int (Z.to_int n).

(** [str(dt)]: [isoformat] with a space between the date and the time. *)
Definition str_datetime (d : datetime) : string :=
  Datetime.pad_dec 4 (year d) ++ "-" ++ Datetime.pad_dec 2 (month d) ++ "-"
  ++ Datetime.pad_dec 2 (day d) ++ " " ++ Datetime.pad_dec 2 (hour d) ++ ":"
  ++ Datetime.pad_dec 2 (minute d) ++ ":" ++ Datetime.pad_dec 2 (second d)
  ++ (if microsecond d =? 0 then ""
      else "." ++ Datetime.pad_dec 6 (microsecond d)).

(** What an f-string writes for a value. *)
Definition format_value (v : value) : string :=
  match v with
  | VNone => "None"
  | VStr s => s
  | VDatetime d => str_datetime d
  end.

Definition month_names : list string :=
  ["January"; "February"; "March"; "April"; "May"; "June"; "July";
   "August"; "September"; "October"; "November"; "December"].

(** The text of one [strftime] directive in the C locale.  [%Y] is the
    year without padding, as the C library of the platform writes it; a
    letter that is no directive is copied with its [%]. *)
Definition strftime_directive (d : datetime) (k : ascii) : string :=
  if Ascii.eqb k "B" then nth (Z.to_nat (month d - 1)) month_names ""
  else if Ascii.eqb k "d" then Datetime.pad_dec 2 (day d)
  else if Ascii.eqb k "m" then Datetime.pad_dec 2 (month d)
  else if Ascii.eqb k "Y" then str_int (year d)
  else if Ascii.eqb k "H" then Datetime.pad_dec 2 (hour d)
  else if Ascii.eqb k "I" then
    Datetime.pad_dec 2 (if hour d mod 12 =? 0 then 12 else hour d mod 12)
  else if Ascii.eqb k "M" then Datetime.pad_dec 2 (minute d)
  else if Ascii.eqb k "S" then Datetime.pad_dec 2 (second d)
  else if Ascii.eqb k "p" then (if hour d <? 12 then "AM" else "PM")
  else if Ascii.eqb k "%" then "%"
  else String "%" (String k EmptyString).

(** [dt.strftime(format)]. *)
Fixpoint strftime (d : datetime) (format : string) : string :=
  match format with
  | EmptyString => EmptyString
  | String c rest =>
      if Ascii.eqb c "%" then
        match rest with
        | String k rest' => strftime_directive d k ++ strftime d rest'
        | EmptyString => "%"
        end
      else String c (strftime d rest)
  end.

(** [post.get(key, default)]. *)
Definition post_get (key : string) (default : value) (post : Dict.dict value)
  : value :=
  match Dict.get key post with
  | Some v => v
  | None => default
  end.

(** The dictionary [_extract_post_info] returns. *)
Definition as_dict (p : post) : Dict.dict value :=
  [("title", VStr (title p));
   ("url", VStr (url p));
   ("date", match date p with Some d => VDatetime d | None => VNone end);
   ("summary", VStr (summary p));
   ("company", VStr (company p));
   ("scraped_at", VStr (scraped_at p))].

(** The entries of one post.  [post['date']], [post['url']] and
    [post['summary']] are read only where [post.get] found the key with a
    true value, so the subscript finds the key. *)
Definition post_entries (post : Dict.dict value) : list string :=
  let title_line :=
    "### " ++ format_value (post_get "title" (VStr "Untitled") post) in
  let date_line := "**Date:** " ++ format_value (post_get "date" VNone post) in
  let link_line :=
    "**Link:** [" ++ format_value (post_get "url" VNone post) ++ "]("
    ++ format_value (post_get "url" VNone post) ++ ")" in
  let summary_line :=
    if truth (post_get "summary" VNone post)
    then "**Summary:** " ++ format_value (post_get "summary" VNone post)
    else "**Summary:** *No summary available*" in
  ([title_line]
   ++ (if truth (post_get "date" VNone post) then [date_line] else [])
   ++ (if truth (post_get "url" VNone post) then [link_line] else [])
   ++ [summary_line]
   ++ [""])%list.

(** The entries of one company: its heading, then its posts or the note
    that there are none. *)
Definition company_entries (company : string)
                           (posts : list (Dict.dict value)) : list string :=
  let heading := "## " ++ company in
  let count_line :=
    "**Recent posts (" ++ str_int (Z.of_nat (List.length posts)) ++ "):**" in
  ([heading; ""]
   ++ match posts with
      | [] => ["*No recent posts found.*"; ""]
      | _ :: _ => [count_line; ""] ++ flat_map post_entries posts
      end)%list.

(** [sum(len(posts) for posts in scraped_data.values())]. *)
Definition total_posts (scraped_data : Dict.dict (list (Dict.dict value)))
  : Z :=
  fold_left (fun acc kv => acc + Z.of_nat (List.length (snd kv)))
            scraped_data 0.

(** The list [content] at the end of [_build_report_content]. *)
Definition content (scraped_data : Dict.dict (list (Dict.dict value)))
                   (date : datetime) : list string :=
  let generated_line :=
    "**Generated on:** " ++ strftime date "%B %d, %Y at %I:%M %p" in
  let total_line :=
    "- **Total posts analyzed:** " ++ str_int (total_posts scraped_data) in
  let companies_line :=
    "- **Companies monitored:** "
    ++ str_int (Z.of_nat (List.length scraped_data)) in
  (["# AI Competitive Intelligence Report"; generated_line; "";
    "## Summary"; total_line; companies_line; ""]
   ++ flat_map (fun kv => company_entries (fst kv) (snd kv)) scraped_data
   ++ ["---";
       "*Report generated automatically by AI Competitive Intelligence Scraper*"])%list.

(** A line feed. *)
Definition LF : string := String (ascii_of_N 10) EmptyString.

(** [_build_report_content]. *)
Definition _build_report_content
    (scraped_data : Dict.dict (list (Dict.dict value))) (date : datetime)
  : string :=
  String.concat LF (content scraped_data date).

End ReportGenerator.

(** * Properties *)

(** ** The date normaliser *)

Module ParseDateFacts.
Import PyStr Strptime BlogScraper.

Lemma obind_raise {A B} (m : outcome A) (k : A -> outcome B) e :
  obind m k = Raise e ->
  m = Raise e \/ exists a, m = Ret a /\ k a = Raise e.
Proof.
  destruct m as [a|e']; simpl; intros H.
  - right. exists a. split; [reflexivity | exact H].
  - left. congruence.
Qed.

Lemma int_digits_raises acc s e :
  int_digits acc s = Raise e -> e = ValueError.
Proof.
  revert acc. induction s as [|c r IH]; simpl; intros acc H.
  - discriminate.
  - destruct (is_digit c); [eauto | congruence].
Qed.

Lemma int_raises s e : int s = Raise e -> e = ValueError.
Proof.
  unfold int. destruct (strip s); intros H.
  - congruence.
  - eapply int_digits_raises; eassumption.
Qed.

Lemma index_from_raises i x l e :
  index_from i x l = Raise e -> e = ValueError.
Proof.
  revert i. induction l as [|y r IH]; simpl; intros i H.
  - congruence.
  - destruct (String.eqb y x); [discriminate | eauto].
Qed.

Lemma new_raises y m d H M S us e :
  Datetime.new y m d H M S us = Raise e -> e = ValueError.
Proof.
  unfold Datetime.new. destruct (_ && _); congruence.
Qed.

Lemma pattern_raises_len n : forall format e,
  (String.length format <= n)%nat ->
  pattern format = Raise e -> e = ValueError.
Proof.
  induction n as [|n IH]; intros format e Hlen H.
  - destruct format; simpl in *; [discriminate | lia].
  - destruct format as [|c rest]; simpl in H; [discriminate|].
    simpl in Hlen.
    destruct (Ascii.eqb c "%").
    + destruct rest as [|k rest']; [congruence|].
      destruct (directive k); [|congruence].
      apply obind_raise in H. destruct H as [H | (a & _ & H)]; [|discriminate].
      refine (IH _ e _ H); simpl in *; lia.
    + destruct (is_space c).
      * destruct rest as [|c' rest']; [discriminate|].
        destruct (is_space c').
        -- refine (IH _ e _ H); simpl in *; lia.
        -- apply obind_raise in H. destruct H as [H | (a & _ & H)]; [|discriminate].
           refine (IH _ e _ H); simpl in *; lia.
      * apply obind_raise in H. destruct H as [H | (a & _ & H)]; [|discriminate].
        refine (IH _ e _ H); simpl in *; lia.
Qed.

Lemma pattern_raises format e : pattern format = Raise e -> e = ValueError.
Proof. apply (pattern_raises_len (String.length format)). lia. Qed.

Lemma set_group_raises p g e : set_group p g = Raise e -> e = ValueError.
Proof.
  destruct g as [k t]. unfold set_group.
  repeat match goal with
         | |- context [if ?b then _ else _] => destruct b
         end;
    intros H; try discriminate;
    apply obind_raise in H; destruct H as [H | (a & _ & H)];
    try discriminate;
    first [ eapply int_raises; eassumption
          | eapply index_from_raises; eassumption ].
Qed.

Lemma set_groups_raises fd : forall p e,
  set_groups p fd = Raise e -> e = ValueError.
Proof.
  induction fd as [|g r IH]; simpl; intros p e H.
  - discriminate.
  - apply obind_raise in H. destruct H as [H | (p' & _ & H)].
    + eapply set_group_raises; eassumption.
    + eapply IH; eassumption.
Qed.

(** [strptime] fails with [ValueError] only. *)
Lemma strptime_raises s format e :
  strptime s format = Raise e -> e = ValueError.
Proof.
  unfold strptime. intros H.
  apply obind_raise in H. destruct H as [H | (its & _ & H)].
  - eapply pattern_raises; eassumption.
  - destruct (match_items its s) as [|[fd rest] ms]; [congruence|].
    destruct (truthy rest); [congruence|].
    apply obind_raise in H. destruct H as [H | (p & _ & H)].
    + eapply set_groups_raises; eassumption.
    + eapply new_raises; eassumption.
Qed.

(** The pattern of [format] matches the whole of [text]: the first match
    the engine finds leaves nothing over. *)
Definition matches_entirely (format text : string) : Prop :=
  exists its fd ms,
    pattern format = Ret its /\ match_items its text = (fd, EmptyString) :: ms.

Lemma strptime_matches_entirely s format d :
  strptime s format = Ret d -> matches_entirely format s.
Proof.
  unfold strptime, matches_entirely. intros H.
  destruct (pattern format) as [its|e]; simpl in H; [|discriminate].
  destruct (match_items its s) as [|[fd rest] ms] eqn:M; [discriminate|].
  destruct rest; simpl in H; [|discriminate].
  exists its, fd, ms. split; [reflexivity | exact M].
Qed.

(** What the loop over the formats returns. *)
Lemma try_formats_spec text : forall formats,
  exists r, try_formats text formats = Ret r /\
    match r with
    | Some d =>
        exists pre fmt post,
          formats = (pre ++ fmt :: post)%list
          /\ strptime text fmt = Ret d
          /\ Forall (fun f => strptime text f = Raise ValueError) pre
    | None => Forall (fun f => strptime text f = Raise ValueError) formats
    end.
Proof.
  induction formats as [|fmt rest IH]; simpl.
  - exists None. split; [reflexivity | constructor].
  - destruct (strptime text fmt) as [d|e] eqn:E.
    + exists (Some d). split; [reflexivity|].
      exists [], fmt, rest. repeat split; [exact E | constructor].
    + pose proof (strptime_raises _ _ _ E) as ->. simpl.
      destruct IH as (r & Hr & Hspec). exists r. split; [exact Hr|].
      destruct r as [d|].
      * destruct Hspec as (pre & f & post & -> & Hf & Hpre).
        exists (fmt :: pre), f, post. repeat split; [exact Hf|].
        constructor; assumption.
      * constructor; assumption.
Qed.

End ParseDateFacts.

Module MonthFirst.
Import PyStr Strptime BlogScraper ParseDateFacts.

Lemma one_inv p s x r :
  In (x, r) (one p s) ->
  exists c, s = String c r /\ p c = true /\ x = String c EmptyString.
Proof.
  unfold one. destruct s as [|c s']; simpl; [tauto|].
  destruct (p c) eqn:E; simpl; [|tauto].
  intros [H|[]]. inversion H; subst. exists c. auto.
Qed.

Lemma cat_inv m1 m2 s x r :
  In (x, r) (cat m1 m2 s) ->
  exists a r1 b, In (a, r1) (m1 s) /\ In (b, r) (m2 r1) /\ x = a ++ b.
Proof.
  unfold cat. intros H. apply in_flat_map in H.
  destruct H as ([a r1] & H1 & H2).
  apply in_map_iff in H2. destruct H2 as ([b r2] & E & H2).
  inversion E; subst. exists a, r1, b. auto.
Qed.

Lemma alt_inv m1 m2 s y : In y (alt m1 m2 s) -> In y (m1 s) \/ In y (m2 s).
Proof. unfold alt. apply in_app_or. Qed.

Lemma in_range_digit lo hi c :
  is_digit lo = true -> is_digit hi = true ->
  in_range lo hi c = true -> is_digit c = true.
Proof.
  unfold is_digit, in_range. intros H1 H2 H.
  apply andb_true_iff in H1, H2, H.
  destruct H1 as [H1 _], H2 as [_ H2], H as [Ha Hb].
  apply N.leb_le in H1, H2, Ha, Hb.
  apply andb_true_iff. split; apply N.leb_le; lia.
Qed.

Lemma eqb_digit d c : is_digit d = true -> Ascii.eqb d c = true -> is_digit c = true.
Proof. intros H E. apply Ascii.eqb_eq in E. subst. exact H. Qed.

(** A text begins with one or two digits and a slash. *)
Definition digits_slash (t : string) : Prop :=
  exists c0 r, t = String c0 r /\ is_digit c0 = true /\
    ((exists r', r = String "/" r') \/
     (exists c1 r', r = String c1 (String "/" r') /\ is_digit c1 = true)).

(** What [%m] consumes: one or two digits. *)
Lemma month_digits m t x r :
  directive "m" = Some m -> In (x, r) (m t) ->
  (exists c0, t = String c0 r /\ is_digit c0 = true) \/
  (exists c0 c1, t = String c0 (String c1 r)
                 /\ is_digit c0 = true /\ is_digit c1 = true).
Proof.
  intros D H. vm_compute in D. inversion D; subst m; clear D.
  change (In (x, r)
    (alts [cat (chr "1") (rng "0" "2"); cat (chr "0") (rng "1" "9");
           rng "1" "9"] t)) in H.
  simpl alts in H.
  apply alt_inv in H. destruct H as [H|H].
  { apply cat_inv in H. destruct H as (a & r1 & b & H1 & H2 & _).
    apply one_inv in H1, H2.
    destruct H1 as (c0 & -> & E0 & _), H2 as (c1 & -> & E1 & _).
    right. exists c0, c1. repeat split.
    - eapply eqb_digit; [|exact E0]; reflexivity.
    - eapply in_range_digit; [| |exact E1]; reflexivity. }
  apply alt_inv in H. destruct H as [H|H].
  { apply cat_inv in H. destruct H as (a & r1 & b & H1 & H2 & _).
    apply one_inv in H1, H2.
    destruct H1 as (c0 & -> & E0 & _), H2 as (c1 & -> & E1 & _).
    right. exists c0, c1. repeat split.
    - eapply eqb_digit; [|exact E0]; reflexivity.
    - eapply in_range_digit; [| |exact E1]; reflexivity. }
  apply alt_inv in H. destruct H as [H|H]; [|destruct H].
  apply one_inv in H. destruct H as (c0 & -> & E0 & _).
  left. exists c0. split; [reflexivity|].
  eapply in_range_digit; [| |exact E0]; reflexivity.
Qed.

Lemma slash_literal c : ci_eqb "/" c = true -> c = "/"%char.
Proof.
  destruct c as [[] [] [] [] [] [] [] []]; vm_compute; intros H;
    first [reflexivity | discriminate].
Qed.

Lemma lit_slash_inv s x r :
  In (x, r) (lit "/" s) -> s = String "/" r.
Proof.
  simpl. destruct s as [|c s']; [intros []|].
  destruct (ci_eqb "/" c) eqn:E; [|intros []].
  simpl. intros [H|[]]. inversion H; subst.
  apply slash_literal in E. subst. reflexivity.
Qed.

Definition mdY : string := "%m/%d/%Y".

(** A text the month-first pattern matches begins with one or two digits
    and a slash. *)
Lemma mdY_digits_slash t its :
  pattern mdY = Ret its -> match_items its t <> [] -> digits_slash t.
Proof.
  intros P H.
  assert (exists m rest, directive "m" = Some m
            /\ its = Directive "m" m :: Literal "/" :: rest) as (m & rest & D & ->).
  { vm_compute in P. inversion P; subst. eexists _, _. split; reflexivity. }
  destruct (match_items _ t) as [|[fd r] ms] eqn:M; [congruence|]. clear H.
  assert (In (fd, r) (match_items (Directive "m" m :: Literal "/" :: rest) t))
    as H by (rewrite M; left; reflexivity).
  clear M. cbn [match_items] in H.
  apply in_flat_map in H. destruct H as ([fd1 r1] & H1 & H2).
  cbn [match_item] in H1. apply in_map_iff in H1.
  destruct H1 as ([x1 r1'] & E1 & H1). inversion E1; subst; clear E1.
  apply in_map_iff in H2. destruct H2 as ([fd2 r2] & _ & H2).
  apply in_flat_map in H2. destruct H2 as ([fd3 r3] & H3 & _).
  cbn [match_item] in H3. apply in_map_iff in H3.
  destruct H3 as ([x3 r3'] & E3 & H3). inversion E3; subst; clear E3.
  apply lit_slash_inv in H3. subst r1.
  destruct (month_digits m t x1 _ D H1) as [(c0 & -> & E0) | (c0 & c1 & -> & E0 & E1)].
  - exists c0, (String "/" r3). repeat split; eauto.
  - exists c0, (String c1 (String "/" r3)). repeat split; eauto.
Qed.

Lemma digit_cases c : is_digit c = true ->
  In c ["0"; "1"; "2"; "3"; "4"; "5"; "6"; "7"; "8"; "9"]%char.
Proof.
  destruct c as [[] [] [] [] [] [] [] []]; vm_compute; intros H;
    first [discriminate | tauto].
Qed.

(** None of the formats listed before the slash formats accepts such a
    text. *)
Lemma earlier_formats_reject t :
  digits_slash t ->
  Forall (fun f => strptime t f = Raise ValueError) (firstn 7 date_formats).
Proof.
  intros (c0 & r & -> & E0 & [(r' & ->) | (c1 & r' & -> & E1)]).
  - apply digit_cases in E0. simpl in E0.
    repeat (destruct E0 as [<- | E0];
            [repeat constructor; vm_compute; reflexivity|]).
    destruct E0.
  - apply digit_cases in E0. apply digit_cases in E1. simpl in E0, E1.
    repeat (destruct E0 as [<- | E0];
            [repeat (destruct E1 as [<- | E1];
                     [repeat constructor; vm_compute; reflexivity|]);
             destruct E1|]).
    destruct E0.
Qed.

Lemma try_formats_skip t pre rest :
  Forall (fun f => strptime t f = Raise ValueError) pre ->
  try_formats t (pre ++ rest) = try_formats t rest.
Proof.
  induction 1 as [|f pre Hf _ IH]; simpl; [reflexivity|].
  rewrite Hf. simpl. exact IH.
Qed.

End MonthFirst.

Module DateClaims.
Import PyStr Strptime BlogScraper ParseDateFacts MonthFirst.

(** C2.  [_parse_date] never raises.  On an empty text, or when
    [strptime] rejects the stripped text under every format, it returns
    [None]; otherwise it returns the date of the first format of
    [date_formats] that [strptime] accepts, all the formats before it
    being rejected, and the pattern of that format matches the whole of
    the stripped text. *)
Theorem parse_date_first_match_never_raises (date_text : string) :
  exists r,
    _parse_date date_text = Ret r
    /\ (r = None <->
        date_text = EmptyString
        \/ Forall (fun f => strptime (strip date_text) f = Raise ValueError)
                  date_formats)
    /\ (forall d, r = Some d ->
        exists pre fmt post,
          date_formats = (pre ++ fmt :: post)%list
          /\ strptime (strip date_text) fmt = Ret d
          /\ matches_entirely fmt (strip date_text)
          /\ Forall (fun f => strptime (strip date_text) f = Raise ValueError)
                    pre).
Proof.
  unfold _parse_date. destruct date_text as [|c s].
  - exists None. simpl. split; [reflexivity|]. split.
    + split; auto.
    + discriminate.
  - cbn [truthy negb].
    destruct (try_formats_spec (strip (String c s)) date_formats)
      as (r & Hr & Hspec).
    exists r. split; [exact Hr|]. split.
    + split.
      * intros ->. right. exact Hspec.
      * intros [E | Hall]; [discriminate|].
        destruct r as [d|]; [|reflexivity]. exfalso.
        destruct Hspec as (pre & fmt & post & Hl & Hf & _).
        rewrite Forall_forall in Hall.
        specialize (Hall fmt). rewrite Hl in Hall.
        rewrite Hall in Hf; [discriminate|].
        apply in_or_app. right. left. reflexivity.
    + intros d ->. destruct Hspec as (pre & fmt & post & Hl & Hf & Hpre).
      exists pre, fmt, post. repeat split; try assumption.
      eapply strptime_matches_entirely; eassumption.
Qed.

(** C9.  A text that [strptime] accepts both as month/day/year and as
    day/month/year is read month first: no earlier format accepts it, and
    [%m/%d/%Y] comes before [%d/%m/%Y]. *)
Theorem slash_date_is_month_first (date_text : string) (d1 d2 : datetime) :
  strptime (strip date_text) "%m/%d/%Y" = Ret d1 ->
  strptime (strip date_text) "%d/%m/%Y" = Ret d2 ->
  _parse_date date_text = Ret (Some d1).
Proof.
  intros H1 _. unfold _parse_date.
  destruct (truthy date_text) eqn:T.
  2:{ destruct date_text; [|discriminate]. vm_compute in H1. discriminate. }
  cbn [negb].
  assert (digits_slash (strip date_text)) as Hshape.
  { pose proof H1 as H. unfold strptime in H.
    destruct (pattern "%m/%d/%Y") as [its|e] eqn:P; [|discriminate].
    simpl in H. apply (mdY_digits_slash _ its P).
    destruct (match_items its (strip date_text)); [discriminate | congruence]. }
  apply earlier_formats_reject in Hshape.
  change date_formats
    with (firstn 7 date_formats ++ ["%m/%d/%Y"; "%d/%m/%Y"])%list.
  rewrite try_formats_skip by exact Hshape.
  cbn [try_formats]. rewrite H1. reflexivity.
Qed.

Lemma slash_date_is_month_first_witness :
  strptime (strip "03/04/2024") "%m/%d/%Y" = Ret (mkDatetime 2024 3 4 0 0 0 0)
  /\ strptime (strip "03/04/2024") "%d/%m/%Y"
     = Ret (mkDatetime 2024 4 3 0 0 0 0)
  /\ _parse_date "03/04/2024" = Ret (Some (mkDatetime 2024 3 4 0 0 0 0)).
Proof.
  split; [reflexivity|]. split; [reflexivity|].
  apply (slash_date_is_month_first "03/04/2024" _
           (mkDatetime 2024 4 3 0 0 0 0)); reflexivity.
Defined.

End DateClaims.

(** ** The extractor and the scanner *)

Module ScanFacts.
Import PyStr Soup World BlogScraper.

(** The world after one reading of the clock. *)
Definition tick (w : world) : world :=
  mkWorld (clock w) (S (ticks w)) (network w) (sent w) (naps w) (pause w).

(** The title the extractor computes. *)
Definition title_of (element : node) : string :=
  strip (collapse_ws
           match title_loop element title_selectors None with
           | Some t => strip (get_text t)
           | None => "No title found"
           end).

Definition summary_of (element : node) : string :=
  match summary_element element with
  | Some se => take 200 (strip (get_text se)) ++ "..."
  | None => "No summary available"
  end.

(** [_extract_post_info] never raises, and reads the clock at most once. *)
Lemma extract_total element base_url company_ w :
  exists r w',
    _extract_post_info element base_url company_ w = (Ret r, w')
    /\ (w' = w \/ w' = tick w).
Proof.
  unfold _extract_post_info, try_except, bind, lift, ret, datetime_now.
  destruct (link_of _ base_url) as [link|e]; [|eauto].
  match goal with
  | |- context [match ?d with Some de => _ | None => Ret None end] =>
      destruct d as [de|]
  end.
  - destruct (_parse_date _) as [pd|e]; simpl; eauto.
  - simpl. eauto.
Qed.

(** What a post returned by [_extract_post_info] holds. *)
Lemma extract_inv element base_url company_ w p w' :
  _extract_post_info element base_url company_ w = (Ret (Some p), w') ->
  link_of (link_element element (title_loop element title_selectors None))
          base_url = Ret (url p)
  /\ title p = title_of element
  /\ summary p = summary_of element
  /\ company p = company_
  /\ scraped_at p = Datetime.isoformat (clock w (ticks w))
  /\ w' = tick w.
Proof.
  unfold _extract_post_info, try_except, bind, lift, ret, datetime_now.
  destruct (link_of _ base_url) as [link|e]; [|discriminate].
  match goal with
  | |- context [match ?d with Some de => _ | None => Ret None end] =>
      destruct d as [de|]
  end.
  - destruct (_parse_date _) as [pd|e]; simpl; [|discriminate].
    intros H. inversion H; subst; clear H. simpl. repeat split.
  - simpl. intros H. inversion H; subst; clear H. simpl. repeat split.
Qed.

(** What the scanner keeps of an element. *)
Definition kept (base_url company_ : string) (cutoff_date : datetime)
    (w0 w1 : world) (elements : list node) (p : post) : Prop :=
  exists element w,
    In element elements
    /\ _extract_post_info element base_url company_ w = (Ret (Some p), tick w)
    /\ clock w = clock w0
    /\ (ticks w0 <= ticks w < ticks w1)%nat
    /\ passes_noise_filter (Some p) = true
    /\ _is_recent_post (date p) cutoff_date = true.

Lemma kept_weaken base_url company_ cutoff_date w0 w0' w1 els element p :
  clock w0' = clock w0 -> (ticks w0 <= ticks w0')%nat ->
  kept base_url company_ cutoff_date w0' w1 els p ->
  kept base_url company_ cutoff_date w0 w1 (element :: els) p.
Proof.
  intros Hc Ht (el & w & Hin & He & Hcw & Hr & Hn & Hrec).
  exists el, w. repeat split; try assumption.
  - right. exact Hin.
  - congruence.
  - lia.
  - lia.
Qed.

(** The loop over the post elements never fails; it appends, in order,
    posts kept from the elements. *)
Lemma for_elements_spec base_url company_ cutoff_date elements :
  forall posts w,
  exists new w',
    for_elements elements base_url company_ cutoff_date posts w
      = ((posts ++ new)%list, None, w')
    /\ (List.length new <= List.length elements)%nat
    /\ clock w' = clock w
    /\ (ticks w <= ticks w')%nat
    /\ Forall (kept base_url company_ cutoff_date w w' elements) new.
Proof.
  induction elements as [|element rest IH]; intros posts w.
  - exists [], w. simpl. rewrite app_nil_r. repeat split; auto.
  - cbn [for_elements].
    destruct (extract_total element base_url company_ w)
      as (r & w1 & He & Hw1).
    rewrite He.
    assert (clock w1 = clock w /\ (ticks w <= ticks w1)%nat) as [Hc1 Ht1].
    { destruct Hw1 as [-> | ->]; simpl; split; auto. }
    destruct r as [p|].
    + destruct (passes_noise_filter (Some p)
                && _is_recent_post (date p) cutoff_date) eqn:K.
      * destruct (IH (posts ++ [p])%list w1) as (new & w' & Hf & Hl & Hc & Ht & Hk).
        exists (p :: new), w'. rewrite Hf, <- app_assoc. simpl.
        repeat split; try lia; try congruence.
        apply andb_true_iff in K. destruct K as [K1 K2].
        constructor.
        -- exists element, w.
           pose proof (extract_inv _ _ _ _ _ _ He) as (_ & _ & _ & _ & _ & ->).
           simpl in Ht. repeat split; auto; try lia. left; reflexivity.
        -- eapply Forall_impl; [|exact Hk].
           intros q Hq. eapply kept_weaken; eassumption.
      * destruct (IH posts w1) as (new & w' & Hf & Hl & Hc & Ht & Hk).
        exists new, w'. rewrite Hf.
        repeat split; try (simpl; lia); try congruence.
        eapply Forall_impl; [|exact Hk].
        intros q Hq. eapply kept_weaken; eassumption.
    + destruct (IH posts w1) as (new & w' & Hf & Hl & Hc & Ht & Hk).
      exists new, w'. rewrite Hf.
      repeat split; try (simpl; lia); try congruence.
      eapply Forall_impl; [|exact Hk].
      intros q Hq. eapply kept_weaken; eassumption.
Qed.

(** The company name the scanner attaches: derived from the page URL. *)
Definition company_of (base_url : string) : outcome string :=
  u <-! Url.urlparse base_url "" ;;
  Ret (PyStr.title (replace "www." "" (Url.netloc u))).

(** [_parse_generic_blog] always returns a list: the empty one when the
    parser or [urlparse] fails, else what the loop keeps of the post
    elements. *)
Lemma parse_generic_blog_spec html_parser html_content base_url cutoff_date w :
  exists posts w',
    _parse_generic_blog html_parser html_content base_url cutoff_date w
      = (Ret posts, w')
    /\ clock w' = clock w
    /\ (ticks w <= ticks w')%nat
    /\ match html_parser html_content, company_of base_url with
       | Ret soup, Ret company_ =>
           (List.length posts <= List.length (post_elements_of soup))%nat
           /\ Forall (kept base_url company_ cutoff_date w w'
                           (post_elements_of soup)) posts
       | _, _ => posts = [] /\ w' = w
       end.
Proof.
  unfold _parse_generic_blog, company_of.
  destruct (html_parser html_content) as [soup|e]; simpl.
  2:{ exists [], w. repeat split; auto. }
  destruct (Url.urlparse base_url "") as [u|e]; simpl.
  2:{ exists [], w. repeat split; auto. }
  destruct (for_elements_spec base_url
              (PyStr.title (replace "www." "" (Url.netloc u)))
              cutoff_date (post_elements_of soup) [] w)
    as (new & w' & Hf & Hl & Hc & Ht & Hk).
  rewrite Hf. simpl. exists new, w'. repeat split; assumption.
Qed.

End ScanFacts.

Module ScanClaims.
Import PyStr Soup World BlogScraper ScanFacts.

Lemma lex_compare_refl l : Datetime.lex_compare l l = Eq.
Proof.
  induction l as [|x l IH]; simpl; [reflexivity|].
  rewrite Z.compare_refl. exact IH.
Qed.

Lemma geb_refl d : Datetime.geb d d = true.
Proof. unfold Datetime.geb, Datetime.compare. now rewrite lex_compare_refl. Qed.

Lemma kept_in_Forall {P : post -> Prop} base_url company_ cutoff_date w w' els posts :
  (forall p, kept base_url company_ cutoff_date w w' els p -> P p) ->
  Forall (kept base_url company_ cutoff_date w w' els) posts ->
  Forall P posts.
Proof. intros H. apply Forall_impl. exact H. Qed.

(** A property of every kept post holds of every post the scanner
    returns. *)
Lemma scan_Forall (P : post -> Prop) html_parser html_content base_url
    cutoff_date w :
  (forall company_ els w', company_of base_url = Ret company_ ->
     forall p, kept base_url company_ cutoff_date w w' els p -> P p) ->
  exists posts,
    fst (_parse_generic_blog html_parser html_content base_url cutoff_date w)
      = Ret posts
    /\ Forall P posts.
Proof.
  intros HP.
  destruct (parse_generic_blog_spec html_parser html_content base_url
              cutoff_date w) as (posts & w' & Hs & _ & _ & Hm).
  exists posts. rewrite Hs. split; [reflexivity|].
  destruct (html_parser html_content) as [soup|e].
  - destruct (company_of base_url) as [company_|e] eqn:C.
    + destruct Hm as [_ Hk]. eapply Forall_impl; [|exact Hk].
      intros p. apply (HP company_ _ w' eq_refl).
    + destruct Hm as [-> _]. constructor.
  - destruct Hm as [-> _]. constructor.
Qed.

(** C1.  [_is_recent_post] holds of an unknown date whatever the cutoff,
    and of a known date exactly when it is not before the cutoff, the
    cutoff itself included; every post the scanner returns has an unknown
    date or a date not before the cutoff. *)
Theorem recency_filter (html_parser : string -> outcome node)
    (html_content base_url : string) (cutoff_date : datetime) (w : world) :
  _is_recent_post None cutoff_date = true
  /\ (forall d, _is_recent_post (Some d) cutoff_date = true
                <-> Datetime.compare d cutoff_date <> Lt)
  /\ (forall d, Datetime.ltb d cutoff_date = true
                <-> _is_recent_post (Some d) cutoff_date = false)
  /\ _is_recent_post (Some cutoff_date) cutoff_date = true
  /\ exists posts,
       fst (_parse_generic_blog html_parser html_content base_url
                                cutoff_date w) = Ret posts
       /\ Forall (fun p =>
                    date p = None
                    \/ exists d, date p = Some d
                                 /\ Datetime.geb d cutoff_date = true) posts.
Proof.
  split; [reflexivity|]. split; [|split; [|split]].
  - intros d. simpl. unfold Datetime.geb.
    destruct (Datetime.compare d cutoff_date); split; congruence.
  - intros d. simpl. unfold Datetime.geb, Datetime.ltb.
    destruct (Datetime.compare d cutoff_date); split; congruence.
  - simpl. apply geb_refl.
  - apply scan_Forall.
    intros company_ els w' _ p (_ & _ & _ & _ & _ & _ & _ & Hrec).
    destruct (date p) as [d|]; [right | left; reflexivity].
    exists d. split; [reflexivity | exact Hrec].
Qed.

(** The first selector with a match gives the post elements. *)
Lemma select_post_elements_first soup : forall sels,
  (select_post_elements soup sels = []
   /\ Forall (fun sel => select sel soup = []) sels)
  \/ exists pre sel post,
       sels = (pre ++ sel :: post)%list
       /\ Forall (fun s => select s soup = []) pre
       /\ select sel soup <> []
       /\ select_post_elements soup sels = firstn 15 (select sel soup)
       /\ select_post_elements soup sels <> [].
Proof.
  induction sels as [|sel rest IH]; simpl.
  - left. split; [reflexivity | constructor].
  - destruct (select sel soup) as [|e es] eqn:E.
    + destruct IH as [[H1 H2] | (pre & s & post & -> & Hpre & Hs & Hr & Hn)].
      * left. split; [exact H1 | constructor; assumption].
      * right. exists (sel :: pre), s, post.
        repeat split; try assumption. constructor; assumption.
    + right. exists [], sel, rest. rewrite E.
      repeat split; try constructor; simpl; congruence.
Qed.

(** C8.  The scanner returns at most 15 posts when some selector of
    [selectors] has a match: the post elements are then the first 15
    matches of the first such selector alone.  It returns at most 10
    posts when no selector has a match. *)
Theorem scanner_output_is_capped (html_parser : string -> outcome node)
    (html_content base_url : string) (cutoff_date : datetime) (w : world) :
  exists posts,
    fst (_parse_generic_blog html_parser html_content base_url
                             cutoff_date w) = Ret posts
    /\ match html_parser html_content with
       | Raise _ => posts = []
       | Ret soup =>
           (Forall (fun sel => select sel soup = []) selectors
            /\ post_elements_of soup = fallback_elements soup
            /\ (List.length posts <= 10)%nat)
           \/ (exists pre sel post,
                 selectors = (pre ++ sel :: post)%list
                 /\ Forall (fun s => select s soup = []) pre
                 /\ select sel soup <> []
                 /\ post_elements_of soup = firstn 15 (select sel soup)
                 /\ (List.length posts <= 15)%nat)
       end.
Proof.
  destruct (parse_generic_blog_spec html_parser html_content base_url
              cutoff_date w) as (posts & w' & Hs & _ & _ & Hm).
  exists posts. rewrite Hs. split; [reflexivity|].
  destruct (html_parser html_content) as [soup|e]; [|tauto].
  assert (List.length posts <= List.length (post_elements_of soup))%nat as Hl.
  { destruct (company_of base_url); [tauto|].
    destruct Hm as [-> _]. simpl. lia. }
  clear Hm. unfold post_elements_of in *.
  destruct (select_post_elements_first soup selectors)
    as [[H1 H2] | (pre & sel & post & Hsel & Hpre & Hne & Hr & Hn)].
  - left. rewrite H1 in *. repeat split; [exact H2|].
    unfold fallback_elements in Hl. rewrite length_firstn in Hl. lia.
  - right. exists pre, sel, post.
    destruct (select_post_elements soup selectors) as [|e es] eqn:E;
      [congruence|].
    repeat split; try assumption.
    rewrite Hr in Hl. rewrite length_firstn in Hl. lia.
Qed.

(** A document whose only article has neither heading, anchor nor titled
    element. *)
Definition untitled_page : string := "<article><p>Body text only.</p></article>".

Definition untitled_soup : node :=
  Tag "[document]" []
    [Tag "article" [] [Tag "p" [] [NavigableString "Body text only."]]].

Definition untitled_parser (html_content : string) : outcome node :=
  if String.eqb html_content untitled_page then Ret untitled_soup
  else Raise RuntimeError.

Definition quiet_world : world :=
  mkWorld (fun n => mkDatetime 2026 11 4 10 0 (Z.of_nat n) 0) 0
          (fun _ _ => Raise ConnectionError) 0 0
          (fun _ _ => Ret tt).

(** C5, as stated, fails: a post entitled "No title found" is returned. *)
Lemma sentinel_title_is_kept :
  exists posts p,
    fst (_parse_generic_blog untitled_parser untitled_page
           "https://site.test" (mkDatetime 2026 10 28 10 0 0 0) quiet_world)
      = Ret posts
    /\ In p posts
    /\ title p = "No title found".
Proof.
  eexists. eexists. split; [vm_compute; reflexivity|].
  split; [left; reflexivity | reflexivity].
Qed.

(** C5, amended.  Every post the scanner returns has a title that is not
    empty and has more than 10 characters. *)
Theorem scanner_keeps_long_titles (html_parser : string -> outcome node)
    (html_content base_url : string) (cutoff_date : datetime) (w : world) :
  exists posts,
    fst (_parse_generic_blog html_parser html_content base_url
                             cutoff_date w) = Ret posts
    /\ Forall (fun p => title p <> EmptyString
                        /\ (10 < String.length (title p))%nat) posts.
Proof.
  apply scan_Forall.
  intros company_ els w' _ p (_ & _ & _ & _ & _ & _ & Hn & _).
  simpl in Hn. apply andb_true_iff in Hn. destruct Hn as [H1 H2].
  split.
  - destruct (title p); [discriminate | congruence].
  - apply Nat.ltb_lt. exact H2.
Qed.

End ScanClaims.

Module ExtractClaims.
Import PyStr Soup World BlogScraper ScanFacts.

Lemma length_app (a b : string) :
  String.length (a ++ b) = (String.length a + String.length b)%nat.
Proof. induction a as [|c a IH]; simpl; [reflexivity | now rewrite IH]. Qed.

Lemma take_all n : forall s, (String.length s <= n)%nat -> take n s = s.
Proof.
  induction n as [|n IH]; intros [|c s] H; simpl in *;
    try reflexivity; try lia.
  rewrite IH by lia. reflexivity.
Qed.

Lemma length_take n : forall s,
  (n <= String.length s)%nat -> String.length (take n s) = n.
Proof.
  induction n as [|n IH]; intros [|c s] H; simpl in *;
    try reflexivity; try lia.
  rewrite IH by lia. reflexivity.
Qed.

Lemma take_app n : forall a b, String.length a = n -> take n (a ++ b) = a.
Proof.
  induction n as [|n IH]; intros a b H.
  - destruct a; [|discriminate]. simpl. destruct b; reflexivity.
  - destruct a as [|c a]; [discriminate|]. simpl in *.
    rewrite IH by lia. reflexivity.
Qed.

Lemma drop_app n : forall a b, String.length a = n -> drop n (a ++ b) = b.
Proof.
  induction n as [|n IH]; intros a b H.
  - destruct a; [|discriminate]. simpl. destruct b; reflexivity.
  - destruct a as [|c a]; [discriminate|]. simpl in *.
    apply IH. lia.
Qed.

(** An element whose paragraph is short. *)
Definition short_article : node :=
  Tag "article" []
    [Tag "h2" [] [NavigableString "Example Title Here"];
     Tag "p" [] [NavigableString "Some summary text."]].

Definition morning : world :=
  mkWorld (fun n => mkDatetime 2026 11 4 10 0 (Z.of_nat n) 0) 0
          (fun _ _ => Raise ConnectionError) 0 0
          (fun _ _ => Ret tt).

(** C4.  The defect, at a concrete element.  The claim wants a found
    summary of at most 200 characters back unmodified; the summary text
    of this element has 18 characters, nothing is cut, and the code
    returns it with the ellipsis appended. *)
Lemma short_summary_gets_ellipsis :
  exists p w' se,
    _extract_post_info short_article "https://site.test" "Site.Test" morning
      = (Ret (Some p), w')
    /\ summary_element short_article = Some se
    /\ strip (get_text se) = "Some summary text."
    /\ (String.length (strip (get_text se)) <= 200)%nat
    /\ summary p = "Some summary text...."
    /\ summary p <> strip (get_text se).
Proof.
  eexists. eexists. eexists.
  split; [vm_compute; reflexivity|].
  split; [vm_compute; reflexivity|].
  split; [vm_compute; reflexivity|].
  split; [vm_compute; lia|].
  split; [vm_compute; reflexivity|].
  vm_compute. discriminate.
Qed.

(** What the code computes when a summary element is found: the first
    200 characters of its stripped text followed by the ellipsis, whatever
    the length of the text.  For a text longer than 200 characters that is
    what the claim says; a text of at most 200 characters comes back with
    the ellipsis all the same, which the claim denies. *)
Theorem summary_is_truncated_with_ellipsis (element : node)
    (base_url company_ : string) (w w' : world) (p : post) (se : node) :
  _extract_post_info element base_url company_ w = (Ret (Some p), w') ->
  summary_element element = Some se ->
  summary p = take 200 (strip (get_text se)) ++ "..."
  /\ ((String.length (strip (get_text se)) <= 200)%nat ->
      summary p = strip (get_text se) ++ "...")
  /\ ((200 < String.length (strip (get_text se)))%nat ->
      String.length (summary p) = 203%nat
      /\ take 200 (summary p) = take 200 (strip (get_text se))
      /\ drop 200 (summary p) = "...").
Proof.
  intros He Hs.
  apply extract_inv in He. destruct He as (_ & _ & Hsum & _).
  unfold summary_of in Hsum. rewrite Hs in Hsum.
  set (text := strip (get_text se)) in *.
  split; [exact Hsum|]. split.
  - intros Hl. rewrite Hsum, take_all by exact Hl. reflexivity.
  - intros Hl.
    assert (String.length (take 200 text) = 200%nat) as L
      by (apply length_take; lia).
    rewrite Hsum. repeat split.
    + rewrite length_app, L. reflexivity.
    + apply take_app. exact L.
    + apply drop_app. exact L.
Qed.

(** An element whose first anchor has text and no [href], followed by an
    anchor with one. *)
Definition unlinked_title : node :=
  Tag "article" []
    [Tag "a" [] [NavigableString "A title without a link"];
     Tag "a" [("href", "/elsewhere")] [NavigableString "more"]].

(** C10.  When the title element is an anchor without [href], the post's
    URL is the base URL; no other anchor of the element is looked for. *)
Theorem title_anchor_without_href (element : node)
    (base_url company_ : string) (w w' : world) (p : post) (t : node) :
  _extract_post_info element base_url company_ w = (Ret (Some p), w') ->
  title_loop element title_selectors None = Some t ->
  name t = "a" ->
  get "href" t = None ->
  url p = base_url.
Proof.
  intros He Ht Hn Hh.
  apply extract_inv in He. destruct He as (Hlink & _).
  rewrite Ht in Hlink. unfold link_element in Hlink.
  rewrite Hn in Hlink. simpl in Hlink. rewrite Hh in Hlink.
  congruence.
Qed.

Lemma title_anchor_without_href_witness :
  find (fun n => named ["a"] n && has_attr "href" n) unlinked_title
    = Some (Tag "a" [("href", "/elsewhere")] [NavigableString "more"])
  /\ exists p,
       fst (_extract_post_info unlinked_title "https://site.test/news"
                               "Site.Test" morning) = Ret (Some p)
       /\ url p = "https://site.test/news".
Proof.
  split; [reflexivity|].
  eexists. split; [vm_compute; reflexivity|].
  refine (title_anchor_without_href unlinked_title "https://site.test/news"
            "Site.Test" morning _ _ _ eq_refl eq_refl eq_refl eq_refl).
Defined.

End ExtractClaims.

Module SourceClaims.
Import PyStr Soup World BlogScraper ScanFacts.

(** A listing page with one article. *)
Definition one_article_page : string :=
  "<article><h2>Example Title Here</h2><p>Some summary text.</p></article>".

Definition one_article_soup : node :=
  Tag "[document]" []
    [Tag "article" []
       [Tag "h2" [] [NavigableString "Example Title Here"];
        Tag "p" [] [NavigableString "Some summary text."]]].

Definition one_article_parser (html_content : string) : outcome node :=
  if String.eqb html_content one_article_page then Ret one_article_soup
  else Raise RuntimeError.

(** A world in which every request is answered with that page. *)
Definition serving_world : world :=
  mkWorld (fun n => mkDatetime 2026 11 4 10 0 (Z.of_nat n) 0) 0
          (fun _ _ => Ret (mkResponse 200 one_article_page)) 0 0
          (fun _ _ => Ret tt).

(** C6, as stated, fails: the post recorded under the site name
    "TechCrunch AI" carries the company "Techcrunch.Com". *)
Lemma company_is_not_the_site_name :
  exists results w' p,
    scrape_all_companies default_rate_limit_delay
                         (companies one_article_parser) 7 serving_world
      = (Ret results, w')
    /\ Dict.get "TechCrunch AI" results = Some [p]
    /\ company p = "Techcrunch.Com"
    /\ company p <> "TechCrunch AI".
Proof.
  eexists. eexists. eexists.
  split; [vm_compute; reflexivity|].
  split; [vm_compute; reflexivity|].
  split; [reflexivity | discriminate].
Qed.

(** C6, amended.  Every post the scanner returns carries as company the
    host of the page URL, without "www." and in title case, and as
    timestamp the ISO text of a reading of the clock made during the
    scan. *)
Theorem company_is_derived_from_url (html_parser : string -> outcome node)
    (html_content base_url : string) (cutoff_date : datetime) (w : world) :
  exists posts w',
    _parse_generic_blog html_parser html_content base_url cutoff_date w
      = (Ret posts, w')
    /\ Forall (fun p =>
         (exists u, Url.urlparse base_url "" = Ret u
                    /\ company p
                       = PyStr.title (replace "www." "" (Url.netloc u)))
         /\ (exists k, (ticks w <= k < ticks w')%nat
                       /\ scraped_at p
                          = Datetime.isoformat (clock w k))) posts.
Proof.
  destruct (parse_generic_blog_spec html_parser html_content base_url
              cutoff_date w) as (posts & w' & Hs & _ & _ & Hm).
  exists posts, w'. split; [exact Hs|].
  destruct (html_parser html_content) as [soup|e];
    [|destruct Hm as [-> _]; constructor].
  unfold company_of in Hm.
  destruct (Url.urlparse base_url "") as [u|e] eqn:U; simpl in Hm;
    [|destruct Hm as [-> _]; constructor].
  destruct Hm as [_ Hk]. eapply Forall_impl; [|exact Hk].
  intros p (element & w1 & _ & He & Hc & Ht & _).
  apply extract_inv in He. destruct He as (_ & _ & _ & Hco & Hat & _).
  split.
  - exists u. split; [reflexivity | exact Hco].
  - exists (ticks w1). split; [exact Ht|]. rewrite Hat, Hc. reflexivity.
Qed.

End SourceClaims.

(** ** Absolute URLs *)

Module UrlFacts.
Import PyStr Url.

(** The scheme [urlsplit] finds in a URL, empty when there is none. *)
Definition scheme_of (url : string) : string :=
  match split_scheme (remove_unsafe (lstrip_c0 url)) with
  | Some (s, _) => s
  | None => EmptyString
  end.

Lemma is_absolute_scheme_of url :
  scheme_of url <> EmptyString -> is_absolute url = true.
Proof.
  unfold scheme_of, is_absolute.
  destruct (split_scheme _) as [[s r]|]; congruence.
Qed.

Lemma urlsplit_scheme url default r :
  urlsplit url default = Ret r ->
  s_scheme r =
    match split_scheme (remove_unsafe (lstrip_c0 url)) with
    | Some (s, _) => s
    | None => remove_unsafe (rstrip_c0 (lstrip_c0 default))
    end.
Proof.
  unfold urlsplit.
  destruct (split_scheme _) as [[s rest]|];
    match goal with
    | |- context [startswith "//" ?u] => destruct (startswith "//" u)
    end;
    try (destruct (span_until _ _) as [nl rs]; destruct (xorb _ _));
    simpl; try discriminate;
    repeat match goal with
           | |- context [partition ?c ?u] =>
               destruct (partition c u) as [[? ?]|]
           end;
    intros H; inversion H; reflexivity.
Qed.

Lemma urlparse_scheme url default u :
  urlparse url default = Ret u ->
  scheme u =
    match split_scheme (remove_unsafe (lstrip_c0 url)) with
    | Some (s, _) => s
    | None => remove_unsafe (rstrip_c0 (lstrip_c0 default))
    end.
Proof.
  unfold urlparse. destruct (urlsplit url default) as [r|e] eqn:S;
    simpl; [|discriminate].
  apply urlsplit_scheme in S.
  destruct (_ && _); [destruct (_splitparams _)|];
    intros H; inversion H; simpl; exact S.
Qed.

Lemma mem_In x l : mem x l = true -> In x l.
Proof.
  unfold mem. intros H. apply existsb_exists in H.
  destruct H as (y & Hin & E). apply String.eqb_eq in E. subst. exact Hin.
Qed.

(** Cleaning a scheme of [uses_relative] leaves it as it is. *)
Lemma relative_scheme_clean s :
  mem s uses_relative = true ->
  remove_unsafe (rstrip_c0 (lstrip_c0 s)) = s.
Proof.
  intros H. apply mem_In in H. unfold uses_relative in H. simpl in H.
  repeat (destruct H as [<- | H]; [reflexivity|]). destruct H.
Qed.

Lemma append_assoc (a b c : string) : (a ++ b) ++ c = a ++ (b ++ c).
Proof. induction a as [|x a IH]; simpl; [reflexivity | now rewrite IH]. Qed.

(** A URL put together with a scheme starts with it and a colon. *)
Lemma urlunsplit_prefix s nl u q f :
  truthy s = true -> exists x, urlunsplit s nl u q f = s ++ ":" ++ x.
Proof.
  intros T. unfold urlunsplit. rewrite T.
  destruct (truthy f), (truthy q);
    rewrite ?append_assoc; eexists; reflexivity.
Qed.

(** A URL put together with a scheme of [uses_relative] has that scheme. *)
Lemma urlunparse_absolute s nl p ps q f :
  mem s uses_relative = true -> s <> EmptyString ->
  is_absolute (urlunparse s nl p ps q f) = true.
Proof.
  intros H Hne. unfold urlunparse.
  destruct (urlunsplit_prefix s nl (if truthy ps then p ++ ";" ++ ps else p)
              q f) as (x & ->).
  { destruct s; [congruence | reflexivity]. }
  apply mem_In in H. unfold uses_relative in H. simpl in H.
  destruct H as [<- | H]; [congruence|].
  repeat (destruct H as [<- | H]; [reflexivity|]).
  destruct H.
Qed.

(** [urljoin] on a base whose scheme is in [uses_relative] gives an
    absolute URL. *)
Lemma urljoin_absolute base url r :
  mem (scheme_of base) uses_relative = true ->
  scheme_of base <> EmptyString ->
  urljoin base url = Ret r ->
  is_absolute r = true.
Proof.
  intros Hrel Hne. unfold urljoin.
  destruct (truthy base) eqn:Tb; cbn [negb].
  2:{ destruct base; [|discriminate]. exfalso. apply Hne. reflexivity. }
  destruct (truthy url) eqn:Tu; cbn [negb].
  2:{ intros H. injection H as <-. apply is_absolute_scheme_of. exact Hne. }
  destruct (urlparse base "") as [b|e] eqn:B; cbn [obind]; [|discriminate].
  destruct (urlparse url (scheme b)) as [u|e] eqn:U; cbn [obind]; [|discriminate].
  apply urlparse_scheme in B. apply urlparse_scheme in U.
  assert (scheme b = scheme_of base) as Hb.
  { rewrite B. unfold scheme_of.
    destruct (split_scheme _) as [[s rest]|]; reflexivity. }
  rewrite Hb in *. clear B.
  destruct (negb (String.eqb (scheme u) (scheme_of base))
            || negb (mem (scheme u) uses_relative)) eqn:C.
  - intros H. injection H as <-.
    unfold is_absolute.
    destruct (split_scheme (remove_unsafe (lstrip_c0 url))) as [[s rest]|];
      [reflexivity|].
    rewrite relative_scheme_clean in U by exact Hrel.
    rewrite U, String.eqb_refl, Hrel in C. discriminate.
  - apply orb_false_iff in C. destruct C as [C1 C2].
    apply negb_false_iff in C1, C2. apply String.eqb_eq in C1.
    assert (scheme u <> EmptyString) as Hu by congruence.
    repeat match goal with
           | |- context [if ?c then _ else _] => destruct c
           end;
      intros H; injection H as <-; apply urlunparse_absolute; assumption.
Qed.

End UrlFacts.

Module LinkClaims.
Import PyStr Soup World BlogScraper ScanFacts UrlFacts.

(** An element whose title anchor has a relative [href]. *)
Definition linked_title : node :=
  Tag "article" []
    [Tag "a" [("href", "/x")] [NavigableString "A title with a link"]].

Definition noon : world :=
  mkWorld (fun n => mkDatetime 2026 11 4 12 0 (Z.of_nat n) 0) 0
          (fun _ _ => Raise ConnectionError) 0 0
          (fun _ _ => Ret tt).

(** C7, as stated, fails: against the absolute base URL
    [git://example.org/news] the relative [href] is returned as it is. *)
Lemma relative_href_left_unresolved :
  exists p w',
    _extract_post_info linked_title "git://example.org/news" "Example.Org"
                       noon = (Ret (Some p), w')
    /\ Url.is_absolute "git://example.org/news" = true
    /\ url p = "/x"
    /\ Url.is_absolute (url p) = false.
Proof.
  eexists. eexists.
  split; [vm_compute; reflexivity|].
  split; [reflexivity|]. split; reflexivity.
Qed.

(** C7, amended.  For a base URL whose scheme is one of those [urljoin]
    resolves relative references for ([http], [https], ...), the URL of an
    extracted post is absolute: it is [urljoin(base_url, href)] when the
    chosen link element has a non-empty [href], and the base URL itself
    otherwise. *)
Theorem extracted_url_is_absolute (element : node)
    (base_url company_ : string) (w w' : world) (p : post) :
  _extract_post_info element base_url company_ w = (Ret (Some p), w') ->
  Url.mem (scheme_of base_url) Url.uses_relative = true ->
  scheme_of base_url <> EmptyString ->
  Url.is_absolute (url p) = true
  /\ match link_element element
             (title_loop element title_selectors None) with
     | Some l =>
         match get "href" l with
         | Some href =>
             if truthy href then Url.urljoin base_url href = Ret (url p)
             else url p = base_url
         | None => url p = base_url
         end
     | None => url p = base_url
     end.
Proof.
  intros He Hrel Hne.
  apply extract_inv in He. destruct He as (Hlink & _).
  unfold link_of in Hlink.
  pose proof (is_absolute_scheme_of base_url Hne) as Hbase.
  destruct (link_element element _) as [l|].
  - destruct (get "href" l) as [href|].
    + destruct (truthy href).
      * split; [|exact Hlink].
        eapply urljoin_absolute; eassumption.
      * injection Hlink as <-. split; [exact Hbase | reflexivity].
    + injection Hlink as <-. split; [exact Hbase | reflexivity].
  - injection Hlink as <-. split; [exact Hbase | reflexivity].
Qed.

Lemma extracted_url_is_absolute_witness :
  exists p,
    fst (_extract_post_info linked_title "https://site.test/news"
                            "Site.Test" noon) = Ret (Some p)
    /\ url p = "https://site.test/x"
    /\ Url.is_absolute (url p) = true.
Proof.
  eexists. split; [vm_compute; reflexivity|].
  split; [reflexivity|].
  refine (proj1 (extracted_url_is_absolute linked_title
            "https://site.test/news" "Site.Test" noon _ _ eq_refl eq_refl _)).
  discriminate.
Defined.

End LinkClaims.

(** ** The orchestrator *)

Module RunFacts.
Import PyStr Soup World BlogScraper ScanFacts.

(** The world after one wait. *)
Definition nap (w : world) : world :=
  mkWorld (clock w) (ticks w) (network w) (sent w) (S (naps w)) (pause w).

(** The world after one request. *)
Definition requested (w : world) : world :=
  mkWorld (clock w) (ticks w) (network w) (S (sent w)) (naps w) (pause w).

(** What one turn of the loop records for a site, and the world it
    leaves before sleeping. *)
Definition site_result (company_name : string) (cfg : config)
    (cutoff_date : datetime) (w : world) : list post * world :=
  match _scrape_company_blog company_name (c_url cfg) (c_parser cfg)
                             cutoff_date w with
  | (Ret posts, w') => (posts, w')
  | (Raise _, w') => ([], w')
  end.

(** The world in which the [i]-th site is reached. *)
Fixpoint world_at (cs : Dict.dict config) (cutoff_date : datetime)
    (i : nat) (w : world) : world :=
  match i, cs with
  | S i', (company_name, cfg) :: rest =>
      world_at rest cutoff_date i'
               (nap (snd (site_result company_name cfg cutoff_date w)))
  | _, _ => w
  end.

(** The request of a site fails: [session.get] raises, or the status is
    an error status. *)
Definition fetch_fails (w : world) (url_ : string) : bool :=
  match network w (sent w) url_ with
  | Raise _ => true
  | Ret r => (400 <=? status_code r) && (status_code r <? 600)
  end.

(** The page of a site is fetched, and its parser raises. *)
Definition parser_raises (cfg : config) (cutoff_date : datetime)
    (w : world) : Prop :=
  exists r e,
    network w (sent w) (c_url cfg) = Ret r
    /\ fetch_fails w (c_url cfg) = false
    /\ fst (c_parser cfg (content r) (c_url cfg) cutoff_date (requested w))
       = Raise e.

(** The page of a site is fetched, its parser is [_parse_generic_blog],
    and BeautifulSoup raises on the page. *)
Definition soup_raises (cfg : config) (w : world) : Prop :=
  exists r e html_parser,
    network w (sent w) (c_url cfg) = Ret r
    /\ fetch_fails w (c_url cfg) = false
    /\ c_parser cfg = _parse_generic_blog html_parser
    /\ html_parser (content r) = Raise e.

Lemma make_request_fails url_ w :
  fetch_fails w url_ = true ->
  _make_request url_ w = (Ret None, requested w).
Proof.
  unfold fetch_fails, _make_request, try_except, bind, session_get,
    raise_for_status, requested.
  destruct (network w (sent w) url_) as [r|e]; [|reflexivity].
  intros ->. reflexivity.
Qed.

Lemma make_request_succeeds url_ w r :
  network w (sent w) url_ = Ret r ->
  fetch_fails w url_ = false ->
  _make_request url_ w = (Ret (Some r), requested w).
Proof.
  unfold fetch_fails, _make_request, try_except, bind, session_get,
    raise_for_status, requested.
  intros ->. intros ->. reflexivity.
Qed.

Lemma site_result_fetch_fails company_name cfg cutoff_date w :
  fetch_fails w (c_url cfg) = true ->
  fst (site_result company_name cfg cutoff_date w) = [].
Proof.
  intros H. unfold site_result, _scrape_company_blog, try_except, bind.
  rewrite (make_request_fails _ _ H). reflexivity.
Qed.

Lemma site_result_parser_raises company_name cfg cutoff_date w :
  parser_raises cfg cutoff_date w ->
  fst (site_result company_name cfg cutoff_date w) = [].
Proof.
  intros (r & e & Hn & Hf & Hp).
  unfold site_result, _scrape_company_blog, try_except, bind.
  rewrite (make_request_succeeds _ _ _ Hn Hf).
  destruct (c_parser cfg (content r) (c_url cfg) cutoff_date (requested w))
    as [[posts|e'] w1]; simpl in Hp; [discriminate|].
  destruct (is_RequestException e'); reflexivity.
Qed.

Lemma site_result_soup_raises company_name cfg cutoff_date w :
  soup_raises cfg w ->
  fst (site_result company_name cfg cutoff_date w) = [].
Proof.
  intros (r & e & hp & Hn & Hf & Hp & Hr).
  unfold site_result, _scrape_company_blog, try_except, bind.
  rewrite (make_request_succeeds _ _ _ Hn Hf), Hp.
  unfold _parse_generic_blog. rewrite Hr. reflexivity.
Qed.

(** The call of [time.sleep] returns in this world. *)
Definition sleeps (secs : seconds) (w : world) : Prop :=
  fst (time_sleep secs w) = Ret tt.

(** Every call of [time.sleep] in the loop over the sites returns. *)
Fixpoint rested (secs : seconds) (cs : Dict.dict config)
    (cutoff_date : datetime) (w : world) : Prop :=
  match cs with
  | [] => True
  | (company_name, cfg) :: rest =>
      sleeps secs (snd (site_result company_name cfg cutoff_date w))
      /\ rested secs rest cutoff_date
                (nap (snd (site_result company_name cfg cutoff_date w)))
  end.

Lemma time_sleep_world secs w :
  snd (time_sleep secs w) = w \/ snd (time_sleep secs w) = nap w.
Proof.
  unfold time_sleep. destruct (timeout_of secs); simpl; auto.
Qed.

Lemma time_sleep_returns secs w :
  sleeps secs w -> time_sleep secs w = (Ret tt, nap w).
Proof.
  unfold sleeps, time_sleep, nap.
  destruct (timeout_of secs) as [n|e]; simpl; [|discriminate].
  intros ->. reflexivity.
Qed.

Lemma time_sleep_raises secs w :
  ~ sleeps secs w -> exists e w', time_sleep secs w = (Raise e, w').
Proof.
  unfold sleeps. destruct (time_sleep secs w) as [[[]|e] w']; simpl.
  - intros H. exfalso. apply H. reflexivity.
  - eauto.
Qed.

(** One turn of the loop records what [site_result] says, then sleeps; an
    exception of [time.sleep] ends the loop. *)
Lemma for_companies_turn secs company_name cfg rest cutoff_date results w :
  for_companies secs ((company_name, cfg) :: rest) cutoff_date results w
  = match time_sleep secs
            (snd (site_result company_name cfg cutoff_date w)) with
    | (Ret _, w') =>
        for_companies secs rest cutoff_date
          (Dict.set company_name
                    (fst (site_result company_name cfg cutoff_date w))
                    results) w'
    | (Raise e, w') => (Raise e, w')
    end.
Proof.
  cbn [for_companies]. unfold site_result, bind, try_except, ret.
  destruct (_scrape_company_blog company_name (c_url cfg) (c_parser cfg)
              cutoff_date w) as [[posts|e] w1]; reflexivity.
Qed.

Lemma for_companies_cons secs company_name cfg rest cutoff_date results w :
  sleeps secs (snd (site_result company_name cfg cutoff_date w)) ->
  for_companies secs ((company_name, cfg) :: rest) cutoff_date results w
  = for_companies secs rest cutoff_date
      (Dict.set company_name
                (fst (site_result company_name cfg cutoff_date w)) results)
      (nap (snd (site_result company_name cfg cutoff_date w))).
Proof.
  intros H. rewrite for_companies_turn, (time_sleep_returns _ _ H).
  reflexivity.
Qed.

(** An exception of [time.sleep] after the first site leaves the loop:
    nothing is returned. *)
Lemma for_companies_aborts secs company_name cfg rest cutoff_date results w :
  ~ sleeps secs (snd (site_result company_name cfg cutoff_date w)) ->
  exists e w',
    for_companies secs ((company_name, cfg) :: rest) cutoff_date results w
    = (Raise e, w').
Proof.
  intros H. rewrite for_companies_turn.
  destruct (time_sleep_raises _ _ H) as (e & w' & ->). eauto.
Qed.

Lemma keys_set {V} k (v : V) d :
  ~ In k (Dict.keys d) ->
  Dict.keys (Dict.set k v d) = (Dict.keys d ++ [k])%list.
Proof.
  induction d as [|[k' v'] d IH]; simpl; intros H; [reflexivity|].
  destruct (String.eqb k' k) eqn:E.
  - apply String.eqb_eq in E. tauto.
  - simpl. rewrite IH by tauto. reflexivity.
Qed.

Lemma get_set_same {V} k (v : V) d : Dict.get k (Dict.set k v d) = Some v.
Proof.
  induction d as [|[k' v'] d IH]; simpl.
  - now rewrite String.eqb_refl.
  - destruct (String.eqb k' k) eqn:E; simpl; rewrite E; auto.
Qed.

Lemma get_set_other {V} k k' (v : V) d :
  k <> k' -> Dict.get k' (Dict.set k v d) = Dict.get k' d.
Proof.
  intros N. induction d as [|[k0 v0] d IH]; simpl.
  - destruct (String.eqb k k') eqn:E; [|reflexivity].
    apply String.eqb_eq in E. contradiction.
  - destruct (String.eqb k0 k) eqn:E; simpl.
    + apply String.eqb_eq in E. subst k0.
      destruct (String.eqb k k') eqn:E'; [|reflexivity].
      apply String.eqb_eq in E'. contradiction.
    + rewrite IH. reflexivity.
Qed.

(** When every sleep returns, the loop over the sites returns; it
    records every site, in order, under its name. *)
Lemma for_companies_spec secs cutoff_date cs : forall results w,
  NoDup (Dict.keys results ++ Dict.keys cs) ->
  rested secs cs cutoff_date w ->
  exists results' w',
    for_companies secs cs cutoff_date results w = (Ret results', w')
    /\ w' = world_at cs cutoff_date (List.length cs) w
    /\ Dict.keys results' = (Dict.keys results ++ Dict.keys cs)%list
    /\ (forall k, ~ In k (Dict.keys cs) ->
          Dict.get k results' = Dict.get k results)
    /\ (forall i company_name cfg,
          nth_error cs i = Some (company_name, cfg) ->
          Dict.get company_name results'
          = Some (fst (site_result company_name cfg cutoff_date
                                   (world_at cs cutoff_date i w)))).
Proof.
  induction cs as [|[n c] rest IH]; intros results w ND HS.
  - exists results, w. simpl. rewrite app_nil_r.
    repeat split; auto. intros [|i] ? ? H; discriminate.
  - destruct HS as [HS1 HS]. rewrite (for_companies_cons _ _ _ _ _ _ _ HS1).
    set (posts := fst (site_result n c cutoff_date w)) in *.
    set (w1 := nap (snd (site_result n c cutoff_date w))) in *.
    simpl in ND.
    assert (~ In n (Dict.keys results) /\ ~ In n (Dict.keys rest)) as [N1 N2].
    { apply NoDup_remove_2 in ND. split; intros H; apply ND;
        apply in_or_app; auto. }
    assert (Dict.keys (Dict.set n posts results)
            = (Dict.keys results ++ [n])%list) as K
      by (apply keys_set; exact N1).
    destruct (IH (Dict.set n posts results) w1)
      as (results' & w' & Hf & Hw & Hk & Hg & Hn).
    { rewrite K, <- app_assoc. exact ND. }
    { exact HS. }
    exists results', w'. split; [exact Hf|]. split; [exact Hw|].
    split; [|split].
    + rewrite Hk, K, <- app_assoc. reflexivity.
    + intros k Hnot. simpl in Hnot.
      rewrite Hg by tauto. apply get_set_other. tauto.
    + intros [|i] name cfg Hnth; simpl in Hnth.
      * injection Hnth as <- <-. rewrite Hg by exact N2.
        apply get_set_same.
      * apply Hn. exact Hnth.
Qed.

End RunFacts.

Module RunClaims.
Import PyStr Soup World BlogScraper ScanFacts RunFacts.

(** C3, as stated, fails.  With the delay [-1.0] the run over the six
    configured sites raises [ValueError] at the first call of
    [time.sleep], after one request: no mapping is returned.  With
    [days_back = 1000000000] it raises [OverflowError] when the cutoff is
    computed, before any request. *)
Lemma negative_delay_aborts_the_run :
  (exists w',
     scrape_all_companies (Nanoseconds (-1000000000))
       (companies SourceClaims.one_article_parser) 7
       SourceClaims.serving_world = (Raise ValueError, w')
     /\ sent w' = 1%nat)
  /\ (exists w',
        scrape_all_companies default_rate_limit_delay
          (companies SourceClaims.one_article_parser) 1000000000
          SourceClaims.serving_world = (Raise OverflowError, w')
        /\ sent w' = 0%nat).
Proof.
  split; eexists; (split; [vm_compute; reflexivity | reflexivity]).
Qed.

(** C3, amended.  When the cutoff can be computed and every call of
    [time.sleep] returns, [scrape_all_companies] returns a mapping whose
    keys are the configured site names, in their order, one per site; no
    failure of a site escapes; a site whose request fails, whose parser
    raises or whose page BeautifulSoup cannot read is recorded with the
    empty list. *)
Theorem run_records_every_site (secs : seconds) (cs : Dict.dict config)
    (days_back : Z) (w : world) (cutoff_date : datetime) :
  NoDup (Dict.keys cs) ->
  Datetime.sub_days (clock w (ticks w)) days_back = Ret cutoff_date ->
  rested secs cs cutoff_date (tick w) ->
  exists results w',
    scrape_all_companies secs cs days_back w = (Ret results, w')
    /\ Dict.keys results = Dict.keys cs
    /\ List.length results = List.length cs
    /\ forall i company_name cfg,
         nth_error cs i = Some (company_name, cfg) ->
         Dict.get company_name results
         = Some (fst (site_result company_name cfg cutoff_date
                        (world_at cs cutoff_date i (tick w))))
         /\ (fetch_fails (world_at cs cutoff_date i (tick w)) (c_url cfg)
               = true
             \/ parser_raises cfg cutoff_date
                              (world_at cs cutoff_date i (tick w))
             \/ soup_raises cfg (world_at cs cutoff_date i (tick w)) ->
             Dict.get company_name results = Some []).
Proof.
  intros ND Hc HS.
  destruct (for_companies_spec secs cutoff_date cs [] (tick w) ND HS)
    as (results & w' & Hf & _ & Hk & _ & Hn).
  exists results, w'.
  assert (scrape_all_companies secs cs days_back w = (Ret results, w'))
    as Hrun.
  { unfold scrape_all_companies, bind, datetime_now, lift.
    rewrite Hc. exact Hf. }
  split; [exact Hrun|]. split; [exact Hk|]. split.
  - apply (f_equal (@List.length string)) in Hk.
    unfold Dict.keys in Hk. simpl in Hk. rewrite !length_map in Hk. exact Hk.
  - intros i name cfg Hnth. specialize (Hn i name cfg Hnth).
    split; [exact Hn|]. rewrite Hn.
    intros [H | [H | H]]; f_equal.
    + apply site_result_fetch_fails. exact H.
    + apply site_result_parser_raises. exact H.
    + apply site_result_soup_raises. exact H.
Qed.

(** A world in which the second request times out and the others are
    answered. *)
Definition second_times_out : world :=
  mkWorld (fun n => mkDatetime 2026 11 4 10 0 (Z.of_nat n) 0) 0
          (fun i _ =>
             if Nat.eqb i 1 then Raise Timeout
             else Ret (mkResponse 200 SourceClaims.one_article_page)) 0 0
          (fun _ _ => Ret tt).

Lemma run_records_every_site_witness :
  exists results w',
    scrape_all_companies default_rate_limit_delay
                         (companies SourceClaims.one_article_parser) 7
                         second_times_out = (Ret results, w')
    /\ Dict.keys results
       = ["TechCrunch AI"; "VentureBeat AI"; "The Verge AI"; "Ars Technica";
          "MIT Technology Review"; "AI News"]
    /\ List.length results = 6%nat
    /\ Dict.get "VentureBeat AI" results = Some [].
Proof.
  destruct (run_records_every_site default_rate_limit_delay
              (companies SourceClaims.one_article_parser)
              7 second_times_out (mkDatetime 2026 10 28 10 0 0 0))
    as (results & w' & Hrun & Hk & Hl & Hsite).
  - repeat (constructor; [simpl; intuition discriminate|]). constructor.
  - reflexivity.
  - vm_compute. repeat split.
  - exists results, w'. split; [exact Hrun|]. split; [exact Hk|].
    split; [exact Hl|].
    refine (proj2 (Hsite 1%nat "VentureBeat AI" _ eq_refl) _).
    left. reflexivity.
Defined.

End RunClaims.

(** ** Further properties of the fetcher and the extractor *)

Module FetchProps.
Import PyStr Soup World BlogScraper ScanFacts RunFacts.

(** X1.  [_make_request] never raises and sends exactly one request; it
    returns [None] exactly when [session.get] raises or the status is an
    error status, and otherwise the response the network gave. *)
Theorem make_request_never_raises (url_ : string) (w : world) :
  exists r,
    _make_request url_ w = (Ret r, requested w)
    /\ (r = None <-> fetch_fails w url_ = true)
    /\ (forall resp, r = Some resp ->
          network w (sent w) url_ = Ret resp
          /\ (status_code resp < 400 \/ 600 <= status_code resp)).
Proof.
  destruct (fetch_fails w url_) eqn:F.
  - exists None. rewrite (make_request_fails _ _ F).
    split; [reflexivity|]. split; [tauto | discriminate].
  - unfold fetch_fails in F.
    destruct (network w (sent w) url_) as [resp|e] eqn:N; [|discriminate].
    exists (Some resp).
    rewrite (make_request_succeeds url_ w resp N)
      by (unfold fetch_fails; rewrite N; exact F).
    split; [reflexivity|]. split; [split; discriminate|].
    intros resp' H. injection H as <-. split; [reflexivity|].
    apply andb_false_iff in F. destruct F as [F|F].
    + left. apply Z.leb_gt in F. exact F.
    + right. apply Z.ltb_ge in F. exact F.
Qed.

(** X2.  [_scrape_company_blog] never raises, whatever its parser does:
    a failed request gives the empty list without calling the parser; an
    answered one gives the parser's posts, or the empty list when the
    parser raises. *)
Theorem scrape_company_blog_never_raises (company_name url_ : string)
    (parser_func : string -> string -> datetime -> M (list post))
    (cutoff_date : datetime) (w : world) :
  exists posts w',
    _scrape_company_blog company_name url_ parser_func cutoff_date w
      = (Ret posts, w')
    /\ match network w (sent w) url_ with
       | Ret resp =>
           if fetch_fails w url_ then posts = [] /\ w' = requested w
           else match parser_func (content resp) url_ cutoff_date
                                  (requested w) with
                | (Ret ps, w2) => posts = ps /\ w' = w2
                | (Raise _, w2) => posts = [] /\ w' = w2
                end
       | Raise _ => posts = [] /\ w' = requested w
       end.
Proof.
  unfold _scrape_company_blog, try_except, bind.
  destruct (fetch_fails w url_) eqn:F.
  - rewrite (make_request_fails _ _ F). exists [], (requested w).
    split; [reflexivity|].
    destruct (network w (sent w) url_); auto.
  - pose proof F as F'. unfold fetch_fails in F'.
    destruct (network w (sent w) url_) as [resp|e] eqn:N; [|discriminate].
    rewrite (make_request_succeeds url_ w resp N F).
    destruct (parser_func (content resp) url_ cutoff_date (requested w))
      as [[ps|e] w2].
    + exists ps, w2. auto.
    + exists [], w2. destruct (is_RequestException e); auto.
Qed.

End FetchProps.

Module ExtractProps.
Import PyStr Soup World BlogScraper ScanFacts ParseDateFacts.

Lemma parse_date_total date_text : exists r, _parse_date date_text = Ret r.
Proof.
  unfold _parse_date. destruct (negb (truthy date_text)); [eauto|].
  destruct (try_formats_spec (strip date_text) date_formats) as (r & H & _).
  eauto.
Qed.

(** X3.  [_extract_post_info] never raises, and it gives up (returns
    [None]) exactly when [urljoin] raises on the [href] of the chosen
    link element; a missing title, date or summary never makes it give
    up. *)
Theorem extract_gives_up_on_bad_href_only (element : node)
    (base_url company_ : string) (w : world) :
  exists r w',
    _extract_post_info element base_url company_ w = (Ret r, w')
    /\ (r = None <->
        exists e,
          link_of (link_element element
                     (title_loop element title_selectors None)) base_url
          = Raise e).
Proof.
  unfold _extract_post_info, try_except, bind, lift, ret, datetime_now.
  destruct (link_of _ base_url) as [link|e].
  - match goal with
    | |- context [match ?d with Some de => _ | None => Ret None end] =>
        destruct d as [de|]
    end.
    + match goal with
      | |- context [_parse_date ?t] =>
          destruct (parse_date_total t) as (pd & ->)
      end.
      eexists _, _. split; [reflexivity|].
      split; [discriminate | intros (e & H); discriminate].
    + eexists _, _. split; [reflexivity|].
      split; [discriminate | intros (e & H); discriminate].
  - eexists _, _. split; [reflexivity|]. split; eauto.
Qed.

Lemma length_take_le n : forall s, (String.length (take n s) <= n)%nat.
Proof.
  induction n as [|n IH]; intros [|c s]; simpl; try lia.
  specialize (IH s). lia.
Qed.

(** X4.  The summary of an extracted post is never empty and has at most
    203 characters. *)
Theorem summary_is_bounded (element : node) (base_url company_ : string)
    (w w' : world) (p : post) :
  _extract_post_info element base_url company_ w = (Ret (Some p), w') ->
  (3 <= String.length (summary p) <= 203)%nat.
Proof.
  intros He. apply extract_inv in He. destruct He as (_ & _ & -> & _).
  unfold summary_of. destruct (summary_element element) as [se|].
  - rewrite ExtractClaims.length_app.
    pose proof (length_take_le 200 (strip (get_text se))).
    change (String.length "...") with 3%nat. lia.
  - simpl. lia.
Qed.

Lemma summary_is_bounded_witness :
  exists p,
    fst (_extract_post_info ExtractClaims.short_article "https://site.test"
                            "Site.Test" ExtractClaims.morning)
      = Ret (Some p)
    /\ (3 <= String.length (summary p) <= 203)%nat.
Proof.
  eexists. split; [vm_compute; reflexivity|].
  refine (summary_is_bounded ExtractClaims.short_article "https://site.test"
            "Site.Test" ExtractClaims.morning _ _ eq_refl).
Defined.

End ExtractProps.

Module DateProps.
Import PyStr Strptime BlogScraper ParseDateFacts.

(** The fields of a date are those of a real calendar date and time. *)
Definition valid_datetime (d : datetime) : Prop :=
  1 <= year d <= 9999
  /\ 1 <= month d <= 12
  /\ 1 <= day d <= Datetime.days_in_month (year d) (month d)
  /\ 0 <= hour d <= 23
  /\ 0 <= minute d <= 59
  /\ 0 <= second d <= 59
  /\ 0 <= microsecond d <= 999999.

Lemma new_valid y m d H M S us dt :
  Datetime.new y m d H M S us = Ret dt ->
  valid_datetime dt /\ microsecond dt = us.
Proof.
  unfold Datetime.new, Datetime.between, Datetime.MINYEAR, Datetime.MAXYEAR.
  destruct (_ && _) eqn:E; [|discriminate].
  intros Hd. injection Hd as <-.
  repeat (apply andb_true_iff in E; destruct E as [E ?]).
  repeat match goal with
         | H : (_ <=? _) = true |- _ => apply Z.leb_le in H
         end.
  unfold valid_datetime. simpl. repeat split; try assumption; try lia.
Qed.

Lemma strptime_valid s format d :
  strptime s format = Ret d -> valid_datetime d /\ microsecond d = 0.
Proof.
  unfold strptime.
  destruct (pattern format) as [its|e]; simpl; [|discriminate].
  destruct (match_items its s) as [|[fd rest] ms]; [discriminate|].
  destruct (truthy rest); [discriminate|].
  destruct (set_groups default_parts fd) as [p|e]; simpl; [|discriminate].
  apply new_valid.
Qed.

(** X5.  A date returned by [_parse_date] is a real calendar date (the
    day exists in its month and year, leap years included) with a time
    of day in range and no microseconds. *)
Theorem parsed_date_is_valid (date_text : string) (d : datetime) :
  _parse_date date_text = Ret (Some d) ->
  valid_datetime d /\ microsecond d = 0.
Proof.
  unfold _parse_date. destruct (negb (truthy date_text)); [discriminate|].
  intros H.
  destruct (try_formats_spec (strip date_text) date_formats)
    as (r & Hr & Hspec).
  rewrite Hr in H. injection H as ->.
  destruct Hspec as (pre & fmt & post & _ & Hf & _).
  eapply strptime_valid; eassumption.
Qed.

Lemma parsed_date_is_valid_witness :
  _parse_date "February 29, 2024" = Ret (Some (mkDatetime 2024 2 29 0 0 0 0))
  /\ _parse_date "February 29, 2023" = Ret None
  /\ valid_datetime (mkDatetime 2024 2 29 0 0 0 0).
Proof.
  split; [reflexivity|]. split; [reflexivity|].
  exact (proj1 (parsed_date_is_valid "February 29, 2024"
                  (mkDatetime 2024 2 29 0 0 0 0) eq_refl)).
Defined.

Lemma lex_compare_trans_ge a : forall b c,
  Datetime.lex_compare a b <> Lt -> Datetime.lex_compare b c <> Lt ->
  Datetime.lex_compare a c <> Lt.
Proof.
  induction a as [|x a IH]; intros [|y b] [|z c]; simpl;
    try congruence.
  destruct (Z.compare_spec x y), (Z.compare_spec y z),
           (Z.compare_spec x z); subst; try congruence; try lia.
  apply IH.
Qed.

(** X6.  The recency test is monotone in the cutoff: a date recent for a
    cutoff is recent for every cutoff that is not later.  Widening the
    window never drops a post. *)
Theorem recency_is_monotone (post_date : option datetime)
    (cutoff_date earlier_cutoff : datetime) :
  Datetime.geb cutoff_date earlier_cutoff = true ->
  _is_recent_post post_date cutoff_date = true ->
  _is_recent_post post_date earlier_cutoff = true.
Proof.
  unfold _is_recent_post, Datetime.geb, Datetime.compare.
  intros Hc Hd. destruct post_date as [d|]; [|reflexivity].
  pose proof (lex_compare_trans_ge (Datetime.fields d)
                (Datetime.fields cutoff_date)
                (Datetime.fields earlier_cutoff)) as T.
  destruct (Datetime.lex_compare (Datetime.fields d)
              (Datetime.fields cutoff_date)); try discriminate;
  destruct (Datetime.lex_compare (Datetime.fields cutoff_date)
              (Datetime.fields earlier_cutoff)); try discriminate;
  destruct (Datetime.lex_compare (Datetime.fields d)
              (Datetime.fields earlier_cutoff)); try reflexivity;
  exfalso; apply T; congruence.
Qed.

Lemma recency_is_monotone_witness :
  _is_recent_post (Some (mkDatetime 2026 11 1 0 0 0 0))
                  (mkDatetime 2026 10 21 10 0 0 0) = true.
Proof.
  exact (recency_is_monotone (Some (mkDatetime 2026 11 1 0 0 0 0))
           (mkDatetime 2026 10 28 10 0 0 0)
           (mkDatetime 2026 10 21 10 0 0 0) eq_refl eq_refl).
Defined.

End DateProps.

(** ** Further properties of the normalisation of texts *)

Module StripProps.
Import PyStr Soup World BlogScraper ScanFacts.

Lemma rstrip_head c r :
  is_space c = false -> exists r', rstrip (String c r) = String c r'.
Proof.
  intros H. simpl. rewrite H. destruct (rstrip r); eauto.
Qed.

Lemma rstrip_idem s : rstrip (rstrip s) = rstrip s.
Proof.
  induction s as [|c r IH]; simpl; [reflexivity|].
  destruct (rstrip r) as [|c' r'] eqn:E.
  - destruct (is_space c) eqn:S; simpl; [reflexivity|].
    rewrite S. reflexivity.
  - simpl in *. rewrite IH. reflexivity.
Qed.

Lemma lstrip_head s :
  lstrip s = EmptyString
  \/ exists c r, lstrip s = String c r /\ is_space c = false.
Proof.
  induction s as [|c r IH]; simpl; [auto|].
  destruct (is_space c) eqn:S; [exact IH|]. right. eauto.
Qed.

Lemma strip_idem s : strip (strip s) = strip s.
Proof.
  unfold strip. destruct (lstrip_head s) as [-> | (c & r & -> & S)];
    [reflexivity|].
  destruct (rstrip_head c r S) as (r' & E). rewrite E.
  simpl lstrip. rewrite S. rewrite <- E. apply rstrip_idem.
Qed.

(** Every whitespace character is a space, followed by a character that
    is not whitespace or by nothing. *)
Fixpoint single_spaced (s : string) : bool :=
  match s with
  | EmptyString => true
  | String c r =>
      (if is_space c
       then Ascii.eqb c " "
            && match r with
               | String c' _ => negb (is_space c')
               | EmptyString => true
               end
       else true)
      && single_spaced r
  end.

Lemma collapse_ws_single_spaced s : single_spaced (collapse_ws s) = true.
Proof.
  induction s as [|c r IH]; [reflexivity|].
  cbn [collapse_ws]. destruct (is_space c) eqn:S.
  - destruct r as [|c' r']; [reflexivity|].
    destruct (is_space c') eqn:S'; [exact IH|].
    cbn [collapse_ws] in *. rewrite S' in *.
    cbn [single_spaced]. cbn [single_spaced] in IH.
    rewrite S' in *. simpl. exact IH.
  - cbn [single_spaced]. rewrite S, IH. reflexivity.
Qed.

Lemma single_spaced_fixed s : single_spaced s = true -> collapse_ws s = s.
Proof.
  induction s as [|c r IH]; [reflexivity|].
  cbn [single_spaced collapse_ws]. intros H.
  apply andb_true_iff in H. destruct H as [H1 H2].
  destruct (is_space c) eqn:S.
  - apply andb_true_iff in H1. destruct H1 as [E N].
    apply Ascii.eqb_eq in E. subst c.
    destruct r as [|c' r']; [reflexivity|].
    apply negb_true_iff in N. rewrite N. rewrite (IH H2). reflexivity.
  - rewrite (IH H2). reflexivity.
Qed.

Lemma single_spaced_tail c r :
  single_spaced (String c r) = true -> single_spaced r = true.
Proof. cbn [single_spaced]. intros H. apply andb_true_iff in H. tauto. Qed.

Lemma lstrip_single_spaced s :
  single_spaced s = true -> single_spaced (lstrip s) = true.
Proof.
  induction s as [|c r IH]; [reflexivity|]. intros H. simpl.
  destruct (is_space c); [|exact H].
  apply IH. eapply single_spaced_tail; eassumption.
Qed.

Lemma rstrip_single_spaced s :
  single_spaced s = true -> single_spaced (rstrip s) = true.
Proof.
  induction s as [|c r IH]; [reflexivity|]. intros H.
  pose proof (single_spaced_tail _ _ H) as Hr.
  specialize (IH Hr). cbn [rstrip].
  destruct (rstrip r) as [|c1 r1] eqn:E.
  - destruct (is_space c) eqn:S; [reflexivity|].
    cbn [single_spaced]. rewrite S. reflexivity.
  - cbn [single_spaced] in H |- *.
    apply andb_true_iff in H. destruct H as [H1 _].
    apply andb_true_iff. split; [|exact IH].
    destruct (is_space c) eqn:S; [|reflexivity].
    apply andb_true_iff in H1. destruct H1 as [H1 N].
    rewrite H1. simpl.
    destruct r as [|c' r']; [discriminate|].
    apply negb_true_iff in N.
    destruct (rstrip_head c' r' N) as (r'' & E'). rewrite E' in E.
    injection E as <- _. rewrite N. reflexivity.
Qed.

(** X7.  The title of an extracted post is normalised: it has neither
    leading nor trailing whitespace, every whitespace character in it is
    a single space between two other characters, and normalising it
    again changes nothing. *)
Theorem title_is_normalised (element : node) (base_url company_ : string)
    (w w' : world) (p : post) :
  _extract_post_info element base_url company_ w = (Ret (Some p), w') ->
  strip (title p) = title p
  /\ collapse_ws (title p) = title p
  /\ single_spaced (title p) = true.
Proof.
  intros He. apply extract_inv in He. destruct He as (_ & -> & _).
  unfold title_of.
  set (raw := match title_loop element title_selectors None with
              | Some t => strip (get_text t)
              | None => "No title found"
              end).
  assert (single_spaced (strip (collapse_ws raw)) = true) as S.
  { unfold strip. apply rstrip_single_spaced, lstrip_single_spaced,
      collapse_ws_single_spaced. }
  split; [apply strip_idem|]. split; [|exact S].
  apply single_spaced_fixed. exact S.
Qed.

(** An element whose heading is spread over lines. *)
Definition ragged_heading : node :=
  Tag "article" []
    [Tag "h2" []
       [NavigableString (String (ascii_of_N 10) "  Example   Title ");
        NavigableString (String (ascii_of_N 9) "Here  ")]].

Lemma title_is_normalised_witness :
  exists p,
    fst (_extract_post_info ragged_heading "https://site.test" "Site.Test"
                            ExtractClaims.morning) = Ret (Some p)
    /\ title p = "Example Title Here"
    /\ strip (title p) = title p.
Proof.
  eexists. split; [vm_compute; reflexivity|]. split; [reflexivity|].
  refine (proj1 (title_is_normalised ragged_heading "https://site.test"
                   "Site.Test" ExtractClaims.morning _ _ eq_refl)).
Defined.

(** X8.  [_parse_date] ignores the whitespace around the text: a text
    and its stripped form are parsed alike. *)
Theorem parse_date_ignores_surrounding_whitespace (date_text : string) :
  _parse_date date_text = _parse_date (strip date_text).
Proof.
  unfold _parse_date. destruct date_text as [|c s]; [reflexivity|].
  cbn [truthy negb]. rewrite strip_idem.
  destruct (strip (String c s)); reflexivity.
Qed.

End StripProps.

(** ** Further properties of the scanner and of the run *)

Module EffectProps.
Import PyStr Soup World BlogScraper ScanFacts RunFacts.

(** Two worlds that differ by readings of the clock only. *)
Definition only_clock_read (w w' : world) (n : nat) : Prop :=
  clock w' = clock w /\ network w' = network w
  /\ sent w' = sent w /\ naps w' = naps w
  /\ pause w' = pause w
  /\ (ticks w <= ticks w' <= ticks w + n)%nat.

Lemma for_elements_world base_url company_ cutoff_date elements :
  forall posts w,
    only_clock_read w
      (snd (for_elements elements base_url company_ cutoff_date posts w))
      (List.length elements).
Proof.
  induction elements as [|element rest IH]; intros posts w.
  - simpl. unfold only_clock_read. repeat split; lia.
  - cbn [for_elements].
    destruct (extract_total element base_url company_ w)
      as (r & w1 & He & Hw1).
    rewrite He.
    match goal with
    | |- only_clock_read _ (snd (for_elements _ _ _ _ ?ps _)) _ =>
        specialize (IH ps w1)
    end.
    destruct IH as (H1 & H2 & H3 & H4 & H5 & H6).
    unfold only_clock_read.
    destruct Hw1 as [-> | ->]; simpl in *;
      repeat split; try assumption; try lia.
Qed.

Lemma post_elements_at_most_15 soup :
  (List.length (post_elements_of soup) <= 15)%nat.
Proof.
  unfold post_elements_of.
  destruct (ScanClaims.select_post_elements_first soup selectors)
    as [[H _] | (pre & sel & post & _ & _ & _ & Hr & _)].
  - rewrite H. unfold fallback_elements. rewrite length_firstn. lia.
  - destruct (select_post_elements soup selectors) eqn:E.
    + unfold fallback_elements. rewrite length_firstn. lia.
    + rewrite Hr. rewrite length_firstn. lia.
Qed.

Lemma scan_world html_parser html_content base_url cutoff_date w :
  only_clock_read w
    (snd (_parse_generic_blog html_parser html_content base_url
                              cutoff_date w)) 15.
Proof.
  unfold _parse_generic_blog.
  destruct (html_parser html_content) as [soup|e]; simpl.
  2:{ unfold only_clock_read. repeat split; lia. }
  destruct (Url.urlparse base_url "") as [u|e]; simpl.
  2:{ unfold only_clock_read. repeat split; lia. }
  pose proof (for_elements_world base_url
                (PyStr.title (replace "www." "" (Url.netloc u)))
                cutoff_date (post_elements_of soup) [] w) as H.
  pose proof (post_elements_at_most_15 soup) as L.
  destruct (for_elements _ _ _ _ _ w) as [[posts oe] w'].
  simpl in *. destruct H as (H1 & H2 & H3 & H4 & H5 & H6).
  unfold only_clock_read. repeat split; try assumption; lia.
Qed.

(** X9.  Scanning a page sends no request and never sleeps: it only
    reads the clock, at most 15 times (once per post element). *)
Theorem scanner_only_reads_the_clock (html_parser : string -> outcome node)
    (html_content base_url : string) (cutoff_date : datetime) (w : world) :
  exists posts w',
    _parse_generic_blog html_parser html_content base_url cutoff_date w
      = (Ret posts, w')
    /\ sent w' = sent w
    /\ naps w' = naps w
    /\ network w' = network w
    /\ clock w' = clock w
    /\ (ticks w <= ticks w' <= ticks w + 15)%nat.
Proof.
  destruct (parse_generic_blog_spec html_parser html_content base_url
              cutoff_date w) as (posts & w' & Hs & _).
  pose proof (scan_world html_parser html_content base_url cutoff_date w)
    as H.
  rewrite Hs in H. simpl in H. destruct H as (H1 & H2 & H3 & H4 & _ & H5).
  exists posts, w'. repeat split; try assumption; lia.
Qed.

(** The sites whose parser is [_parse_generic_blog], as configured. *)
Definition generic (cs : Dict.dict config) : Prop :=
  Forall (fun site =>
            exists html_parser,
              c_parser (snd site) = _parse_generic_blog html_parser) cs.

(** What a turn of the loop over a generic site leaves: one more request,
    no sleep yet, the same operating system, posts that passed the
    filters. *)
Lemma generic_site_result company_name cfg cutoff_date w html_parser :
  c_parser cfg = _parse_generic_blog html_parser ->
  sent (snd (site_result company_name cfg cutoff_date w)) = S (sent w)
  /\ naps (snd (site_result company_name cfg cutoff_date w)) = naps w
  /\ pause (snd (site_result company_name cfg cutoff_date w)) = pause w
  /\ Forall (fun p => _is_recent_post (date p) cutoff_date = true
                      /\ passes_noise_filter (Some p) = true)
            (fst (site_result company_name cfg cutoff_date w)).
Proof.
  intros Hp. unfold site_result, _scrape_company_blog, try_except, bind.
  destruct (fetch_fails w (c_url cfg)) eqn:F.
  - rewrite (make_request_fails _ _ F). simpl. auto.
  - pose proof F as F'. unfold fetch_fails in F'.
    destruct (network w (sent w) (c_url cfg)) as [resp|e] eqn:N;
      [|discriminate].
    rewrite (make_request_succeeds _ w resp N F), Hp.
    destruct (parse_generic_blog_spec html_parser (content resp) (c_url cfg)
                cutoff_date (requested w)) as (posts & w' & Hs & _ & _ & Hm).
    pose proof (scan_world html_parser (content resp) (c_url cfg)
                  cutoff_date (requested w)) as Hw.
    rewrite Hs in *. simpl in Hw |- *.
    destruct Hw as (_ & _ & H3 & H4 & H5 & _).
    split; [exact H3|]. split; [exact H4|]. split; [exact H5|].
    destruct (html_parser (content resp)) as [soup|e];
      [|destruct Hm as [-> _]; constructor].
    destruct (company_of (c_url cfg)) as [co|e];
      [|destruct Hm as [-> _]; constructor].
    destruct Hm as [_ Hk]. eapply Forall_impl; [|exact Hk].
    intros p (_ & _ & _ & _ & _ & _ & Hn & Hr). auto.
Qed.

Lemma Forall_set {V} (P : V -> Prop) k v (d : Dict.dict V) :
  P v -> Forall (fun e => P (snd e)) d ->
  Forall (fun e => P (snd e)) (Dict.set k v d).
Proof.
  intros Hv. induction 1 as [|[k' v'] d Hx Hd IH]; simpl.
  - constructor; [exact Hv | constructor].
  - destruct (String.eqb k' k); constructor; auto.
Qed.

(** Over generic sites, every sleep returns as soon as the delay is one
    [time.sleep] accepts and the operating system carries out the waits. *)
Lemma generic_rested secs n cutoff_date cs :
  generic cs -> timeout_of secs = Ret n ->
  forall w, (forall i, pause w i n = Ret tt) ->
            rested secs cs cutoff_date w.
Proof.
  induction 1 as [|[name c] rest (hp & Hp) _ IH]; intros Ht w HP; simpl;
    [exact I|].
  destruct (generic_site_result name c cutoff_date w hp Hp)
    as (_ & _ & Hpa & _).
  split.
  - unfold sleeps, time_sleep. rewrite Ht. simpl. rewrite Hpa. apply HP.
  - apply IH; [exact Ht|]. intros i. simpl. rewrite Hpa. apply HP.
Qed.


(** When every sleep returns the loop returns, in the world reached after
    the last site. *)
Lemma for_companies_returns secs cutoff_date cs : forall results w,
  rested secs cs cutoff_date w ->
  exists results',
    for_companies secs cs cutoff_date results w
    = (Ret results', world_at cs cutoff_date (List.length cs) w).
Proof.
  induction cs as [|[name c] rest IH]; intros results w HS.
  - exists results. reflexivity.
  - destruct HS as [HS1 HS].
    rewrite (for_companies_cons _ _ _ _ _ _ _ HS1). simpl.
    apply IH. exact HS.
Qed.

(** The posts recorded pass the filters, whenever the loop returns. *)
Lemma for_companies_invariant secs cutoff_date cs : generic cs ->
  forall results w results' w',
    Forall (fun e => Forall (fun p =>
              _is_recent_post (date p) cutoff_date = true
              /\ passes_noise_filter (Some p) = true) (snd e)) results ->
    for_companies secs cs cutoff_date results w = (Ret results', w') ->
    Forall (fun e => Forall (fun p =>
              _is_recent_post (date p) cutoff_date = true
              /\ passes_noise_filter (Some p) = true) (snd e)) results'.
Proof.
  induction 1 as [|[n c] rest (hp & Hp) _ IH];
    intros results w results' w' HR Hf.
  - simpl in Hf. unfold ret in Hf. injection Hf as <- _. exact HR.
  - rewrite for_companies_turn in Hf.
    destruct (generic_site_result n c cutoff_date w hp Hp)
      as (_ & _ & _ & Hposts).
    destruct (time_sleep secs (snd (site_result n c cutoff_date w)))
      as [[[]|e] w2]; [|discriminate].
    eapply IH; [|exact Hf].
    apply (Forall_set (fun posts => Forall _ posts)); assumption.
Qed.


Lemma companies_generic html_parser : generic (companies html_parser).
Proof. repeat constructor; exists html_parser; reflexivity. Qed.


(** X11.  The invariant of a run's result: whenever the run returns,
    every post recorded, under whatever site, has an unknown date or a
    date not before the cutoff [now - days_back], and a title of more
    than 10 characters; and the run does return when the delay is one
    [time.sleep] accepts and the operating system carries out the
    waits. *)
Theorem every_recorded_post_is_recent (secs : seconds)
    (cs : Dict.dict config) (days_back : Z) (w : world)
    (cutoff_date : datetime) :
  generic cs ->
  Datetime.sub_days (clock w (ticks w)) days_back = Ret cutoff_date ->
  (forall n, timeout_of secs = Ret n -> (forall i, pause w i n = Ret tt) ->
     exists results w',
       scrape_all_companies secs cs days_back w = (Ret results, w'))
  /\ forall results w',
       scrape_all_companies secs cs days_back w = (Ret results, w') ->
       forall company_name posts p,
         In (company_name, posts) results -> In p posts ->
         (date p = None
          \/ exists d, date p = Some d
                       /\ Datetime.geb d cutoff_date = true)
         /\ (10 < String.length (title p))%nat.
Proof.
  intros G Hc.
  assert (scrape_all_companies secs cs days_back w
          = for_companies secs cs cutoff_date [] (tick w)) as Hrun.
  { unfold scrape_all_companies, bind, datetime_now, lift.
    rewrite Hc. reflexivity. }
  split.
  - intros n Ht HP. rewrite Hrun.
    assert (rested secs cs cutoff_date (tick w)) as HS
      by (apply (generic_rested secs n); assumption).
    destruct (for_companies_returns secs cutoff_date cs [] (tick w) HS)
      as (results & Hf).
    eauto.
  - intros results w' Hf name posts p Hin Hp. rewrite Hrun in Hf.
    pose proof (for_companies_invariant secs cutoff_date cs G [] (tick w)
                  results w' (Forall_nil _) Hf) as HR.
    rewrite Forall_forall in HR. specialize (HR _ Hin). simpl in HR.
    rewrite Forall_forall in HR. destruct (HR _ Hp) as [Hr Hn].
    split.
    + unfold _is_recent_post in Hr. destruct (date p) as [d|]; eauto.
    + simpl in Hn. apply andb_true_iff in Hn. destruct Hn as [_ Hn].
      apply Nat.ltb_lt. exact Hn.
Qed.

Lemma every_recorded_post_is_recent_witness :
  exists results w',
    scrape_all_companies default_rate_limit_delay
                         (companies SourceClaims.one_article_parser) 7
                         SourceClaims.serving_world = (Ret results, w')
    /\ forall company_name posts p,
         In (company_name, posts) results -> In p posts ->
         (date p = None
          \/ exists d, date p = Some d
                       /\ Datetime.geb d (mkDatetime 2026 10 28 10 0 0 0)
                          = true)
         /\ (10 < String.length (title p))%nat.
Proof.
  destruct (every_recorded_post_is_recent default_rate_limit_delay
              (companies SourceClaims.one_article_parser) 7
              SourceClaims.serving_world (mkDatetime 2026 10 28 10 0 0 0)
              (companies_generic _) eq_refl) as [Hex Hinv].
  destruct (Hex 1000000000 eq_refl (fun _ => eq_refl))
    as (results & w' & Hrun).
  exists results, w'. split; [exact Hrun | exact (Hinv results w' Hrun)].
Defined.

(** X17.  A delay [time.sleep] rejects (negative, not a number, or too
    large for the 64-bit count of nanoseconds) ends the run at the first
    site: the exception of [time.sleep] escapes after exactly one request
    and before any wait, and what the first site gave is lost.  The
    [try] statement of the loop does not cover the call. *)
Theorem rejected_delay_aborts_after_first_site
    (secs : seconds) (e : exn) (company_name : string) (cfg : config)
    (rest : Dict.dict config) (days_back : Z) (w : world)
    (cutoff_date : datetime) (html_parser : string -> outcome node) :
  c_parser cfg = _parse_generic_blog html_parser ->
  Datetime.sub_days (clock w (ticks w)) days_back = Ret cutoff_date ->
  timeout_of secs = Raise e ->
  exists w',
    scrape_all_companies secs ((company_name, cfg) :: rest) days_back w
    = (Raise e, w')
    /\ sent w' = S (sent w)
    /\ naps w' = naps w.
Proof.
  intros Hp Hc Ht.
  destruct (generic_site_result company_name cfg cutoff_date (tick w)
              html_parser Hp) as (Hs & Hn & _).
  exists (snd (site_result company_name cfg cutoff_date (tick w))).
  split; [|split; [exact Hs | exact Hn]].
  unfold scrape_all_companies, bind, datetime_now, lift. rewrite Hc.
  change (mkWorld (clock w) (S (ticks w)) (network w) (sent w) (naps w)
                  (pause w)) with (tick w).
  rewrite for_companies_turn. unfold time_sleep. rewrite Ht. reflexivity.
Qed.

Lemma rejected_delay_aborts_after_first_site_witness :
  exists w',
    scrape_all_companies NaN (companies SourceClaims.one_article_parser) 7
                         SourceClaims.serving_world = (Raise ValueError, w')
    /\ sent w' = 1%nat
    /\ naps w' = 0%nat.
Proof.
  exact (rejected_delay_aborts_after_first_site NaN ValueError
           "TechCrunch AI"
           (mkConfig "https://techcrunch.com/category/artificial-intelligence/"
                     (_parse_generic_blog SourceClaims.one_article_parser))
           (tl (companies SourceClaims.one_article_parser))
           7 SourceClaims.serving_world (mkDatetime 2026 10 28 10 0 0 0)
           SourceClaims.one_article_parser eq_refl eq_refl eq_refl).
Defined.

End EffectProps.

(** ** ISO texts are read back *)

Module IsoProps.
Import PyStr Strptime BlogScraper ParseDateFacts MonthFirst DateProps.

(** The decimal digit of the units of [k]. *)
Definition dc (k : Z) : ascii := ascii_of_N (Z.to_N (k mod 10) + 48).

Lemma below_cases n v :
  0 <= v < Z.of_nat n -> In v (map Z.of_nat (seq 0 n)).
Proof.
  intros H. apply in_map_iff. exists (Z.to_nat v). split; [lia|].
  apply in_seq. lia.
Qed.

Ltac enumerate H :=
  simpl in H; repeat (destruct H as [<- | H]; [|]); [..| destruct H].

Lemma dc_props k :
  is_digit (dc k) = true
  /\ is_space (dc k) = false
  /\ Z.of_N (code (dc k)) - 48 = k mod 10.
Proof.
  unfold dc.
  assert (0 <= k mod 10 < Z.of_nat 10) as H
    by (apply Z.mod_pos_bound; lia).
  apply below_cases in H. generalize dependent (k mod 10). intros j H.
  enumerate H; repeat split; reflexivity.
Qed.

Lemma pad2 v : Datetime.pad_dec 2 v = String (dc (v / 10)) (String (dc v) "").
Proof. reflexivity. Qed.

Lemma pad4 v :
  Datetime.pad_dec 4 v
  = String (dc (v / 10 / 10 / 10))
      (String (dc (v / 10 / 10)) (String (dc (v / 10)) (String (dc v) ""))).
Proof. reflexivity. Qed.

(** [int] reads a padded number back. *)
Lemma int_pad4 y : 0 <= y <= 9999 -> int (Datetime.pad_dec 4 y) = Ret y.
Proof.
  intros H. rewrite pad4. unfold int, strip.
  pose proof (dc_props (y / 10 / 10 / 10)) as (D3 & S3 & V3).
  pose proof (dc_props (y / 10 / 10)) as (D2 & S2 & V2).
  pose proof (dc_props (y / 10)) as (D1 & S1 & V1).
  pose proof (dc_props y) as (D0 & S0 & V0).
  cbn [lstrip]. rewrite S3. cbn [rstrip]. rewrite S0. cbn [rstrip].
  cbn [int_digits]. rewrite D3, D2, D1, D0, V3, V2, V1, V0.
  f_equal. Z.div_mod_to_equations. lia.
Qed.

Lemma int_pad2 v : 0 <= v <= 99 -> int (Datetime.pad_dec 2 v) = Ret v.
Proof.
  intros H. rewrite pad2. unfold int, strip.
  pose proof (dc_props (v / 10)) as (D1 & S1 & V1).
  pose proof (dc_props v) as (D0 & S0 & V0).
  cbn [lstrip]. rewrite S1. cbn [rstrip]. rewrite S0. cbn [rstrip].
  cbn [int_digits]. rewrite D1, D0, V1, V0.
  f_equal. Z.div_mod_to_equations. lia.
Qed.

(** The matcher of a directive. *)
Definition dmatcher (k : ascii) : matcher :=
  match directive k with Some m => m | None => none end.

(** The first match of a directive on a padded number is the number. *)
Definition reads (k : ascii) (width : nat) (lo hi : Z) : Prop :=
  forall v rest, lo <= v <= hi ->
    hd_error (dmatcher k (Datetime.pad_dec width v ++ rest))
    = Some (Datetime.pad_dec width v, rest).

Lemma reads_Y : reads "Y" 4 0 9999.
Proof.
  intros v rest _. rewrite pad4.
  pose proof (dc_props (v / 10 / 10 / 10)) as (D3 & _).
  pose proof (dc_props (v / 10 / 10)) as (D2 & _).
  pose proof (dc_props (v / 10)) as (D1 & _).
  pose proof (dc_props v) as (D0 & _).
  change (dmatcher "Y") with (cat digit (cat digit (cat digit digit))).
  unfold cat, digit, one. cbn [append].
  rewrite D3. cbn [flat_map map app]. rewrite D2. cbn [flat_map map app].
  rewrite D1. cbn [flat_map map app]. rewrite D0. reflexivity.
Qed.

Ltac read_two_digits :=
  intros v rest H;
  let B := fresh in
  assert (0 <= v < Z.of_nat 60) as B by lia;
  apply below_cases in B;
  enumerate B; first [reflexivity | exfalso; lia].

Lemma reads_m : reads "m" 2 1 12.
Proof. read_two_digits. Qed.

Lemma reads_d : reads "d" 2 1 31.
Proof. read_two_digits. Qed.

Lemma reads_H : reads "H" 2 0 23.
Proof. read_two_digits. Qed.

Lemma reads_M : reads "M" 2 0 59.
Proof. read_two_digits. Qed.

Lemma reads_S : reads "S" 2 0 59.
Proof. read_two_digits. Qed.

(** The first match of a pattern, item by item. *)
Lemma head_directive k m its s t r fd r' :
  hd_error (m s) = Some (t, r) ->
  hd_error (match_items its r) = Some (fd, r') ->
  hd_error (match_items (Directive k m :: its) s) = Some ((k, t) :: fd, r').
Proof.
  intros H1 H2. cbn [match_items match_item].
  destruct (m s) as [|[t0 r0] ms]; [discriminate|].
  injection H1 as -> ->. cbn [map flat_map].
  destruct (match_items its r) as [|[fd0 r0'] l]; [discriminate|].
  injection H2 as -> ->. reflexivity.
Qed.

Lemma head_literal c its r fd r' :
  hd_error (match_items its r) = Some (fd, r') ->
  hd_error (match_items (Literal c :: its) (String c r)) = Some (fd, r').
Proof.
  intros H. cbn [match_items match_item lit]. unfold ci_eqb.
  rewrite Ascii.eqb_refl. cbn [map flat_map].
  destruct (match_items its r) as [|[fd0 r0'] l]; [discriminate|].
  injection H as -> ->. reflexivity.
Qed.

Definition date_items : list item :=
  [Directive "Y" (dmatcher "Y"); Literal "-"; Directive "m" (dmatcher "m");
   Literal "-"; Directive "d" (dmatcher "d")].

Definition time_items : list item :=
  [Literal "T"; Directive "H" (dmatcher "H"); Literal ":";
   Directive "M" (dmatcher "M"); Literal ":"; Directive "S" (dmatcher "S")].

(** The text of the date, and of the time of day. *)
Definition date_text (d : datetime) : string :=
  Datetime.pad_dec 4 (year d) ++ "-" ++ Datetime.pad_dec 2 (month d) ++ "-"
  ++ Datetime.pad_dec 2 (day d).

Definition time_text (d : datetime) : string :=
  "T" ++ Datetime.pad_dec 2 (hour d) ++ ":"
  ++ Datetime.pad_dec 2 (minute d) ++ ":" ++ Datetime.pad_dec 2 (second d).

Lemma append_reassoc (a b c : string) : (a ++ b) ++ c = a ++ (b ++ c).
Proof. induction a as [|x a IH]; simpl; [reflexivity | now rewrite IH]. Qed.

Lemma append_nil_r (a : string) : a ++ "" = a.
Proof. induction a as [|x a IH]; simpl; [reflexivity | now rewrite IH]. Qed.

Lemma isoformat_split d :
  microsecond d = 0 -> Datetime.isoformat d = date_text d ++ time_text d.
Proof.
  intros H. unfold Datetime.isoformat, date_text, time_text. rewrite H.
  cbn [Z.eqb]. rewrite !append_reassoc. cbn [append].
  rewrite append_nil_r. reflexivity.
Qed.

(** The groups of the date and of the time of day. *)
Definition date_groups (d : datetime) : found_dict :=
  [("Y"%char, Datetime.pad_dec 4 (year d));
   ("m"%char, Datetime.pad_dec 2 (month d));
   ("d"%char, Datetime.pad_dec 2 (day d))].

Definition time_groups (d : datetime) : found_dict :=
  [("H"%char, Datetime.pad_dec 2 (hour d));
   ("M"%char, Datetime.pad_dec 2 (minute d));
   ("S"%char, Datetime.pad_dec 2 (second d))].

Lemma days_in_month_le y m : Datetime.days_in_month y m <= 31.
Proof.
  unfold Datetime.days_in_month.
  repeat match goal with
         | |- context [if ?b then _ else _] => destruct b
         end; lia.
Qed.

Lemma date_head d its rest fd r' :
  valid_datetime d ->
  hd_error (match_items its rest) = Some (fd, r') ->
  hd_error (match_items (date_items ++ its) (date_text d ++ rest))
  = Some ((date_groups d ++ fd)%list, r').
Proof.
  intros (Hy & Hm & Hd & _) H.
  pose proof (days_in_month_le (year d) (month d)).
  unfold date_items, date_text, date_groups. cbn [app].
  rewrite !append_reassoc. cbn [append].
  eapply head_directive; [apply reads_Y; lia|].
  apply head_literal.
  eapply head_directive; [apply reads_m; lia|].
  apply head_literal.
  eapply head_directive; [apply reads_d; lia|].
  exact H.
Qed.

Lemma time_head d its rest fd r' :
  valid_datetime d ->
  hd_error (match_items its rest) = Some (fd, r') ->
  hd_error (match_items (time_items ++ its) (time_text d ++ rest))
  = Some ((time_groups d ++ fd)%list, r').
Proof.
  intros (_ & _ & _ & HH & HM & HS & _) H.
  unfold time_items, time_text, time_groups. cbn [app].
  rewrite !append_reassoc. cbn [append].
  apply head_literal.
  eapply head_directive; [apply reads_H; lia|].
  apply head_literal.
  eapply head_directive; [apply reads_M; lia|].
  apply head_literal.
  eapply head_directive; [apply reads_S; lia|].
  exact H.
Qed.

Lemma new_of_valid d :
  valid_datetime d -> microsecond d = 0 ->
  Datetime.new (year d) (month d) (day d) (hour d) (minute d) (second d) 0
  = Ret d.
Proof.
  intros (Hy & Hm & Hd & HH & HM & HS & _) Hus.
  unfold Datetime.new, Datetime.between, Datetime.MINYEAR, Datetime.MAXYEAR.
  repeat match goal with
         | |- context [(?a <=? ?b)] =>
             replace (a <=? b) with true by (symmetry; apply Z.leb_le; lia)
         end.
  cbn [andb]. destruct d; simpl in *. subst. reflexivity.
Qed.

Lemma set_date_groups d p fd :
  valid_datetime d ->
  set_groups p (date_groups d ++ fd)%list
  = set_groups (mkParts (year d) (month d) (day d)
                        (p_hour p) (p_minute p) (p_second p)) fd.
Proof.
  intros (Hy & Hm & Hd & _).
  pose proof (days_in_month_le (year d) (month d)).
  unfold date_groups.
  cbn [app set_groups set_group Ascii.eqb Bool.eqb andb].
  rewrite int_pad4 by lia.
  cbn [obind p_year p_month p_day p_hour p_minute p_second].
  rewrite int_pad2 by lia.
  cbn [obind p_year p_month p_day p_hour p_minute p_second].
  rewrite int_pad2 by lia. reflexivity.
Qed.

Lemma set_time_groups d p :
  valid_datetime d ->
  set_groups p (time_groups d)
  = Ret (mkParts (p_year p) (p_month p) (p_day p)
                 (hour d) (minute d) (second d)).
Proof.
  intros (_ & _ & _ & HH & HM & HS & _).
  unfold time_groups.
  cbn [set_groups set_group Ascii.eqb Bool.eqb andb].
  rewrite int_pad2 by lia.
  cbn [obind p_year p_month p_day p_hour p_minute p_second].
  rewrite int_pad2 by lia.
  cbn [obind p_year p_month p_day p_hour p_minute p_second].
  rewrite int_pad2 by lia. reflexivity.
Qed.

Lemma hd_cons {A : Type} (l : list A) (x : A) :
  hd_error l = Some x -> exists r, l = x :: r.
Proof. destruct l as [|y r]; [discriminate|]. intros [= ->]. eauto. Qed.

Lemma iso_strip d :
  microsecond d = 0 ->
  strip (Datetime.isoformat d) = Datetime.isoformat d
  /\ truthy (Datetime.isoformat d) = true.
Proof.
  intros H. unfold Datetime.isoformat. rewrite H. cbn [Z.eqb].
  rewrite pad4, !pad2. cbn [append].
  pose proof (dc_props (year d / 10 / 10 / 10)) as (_ & S3 & _).
  pose proof (dc_props (second d)) as (_ & S0 & _).
  unfold strip. cbn [lstrip]. rewrite S3. cbn [rstrip]. rewrite S0.
  split; reflexivity.
Qed.

Lemma date_strip d :
  strip (date_text d) = date_text d /\ truthy (date_text d) = true.
Proof.
  unfold date_text. rewrite pad4, !pad2. cbn [append].
  pose proof (dc_props (year d / 10 / 10 / 10)) as (_ & S3 & _).
  pose proof (dc_props (day d)) as (_ & S0 & _).
  unfold strip. cbn [lstrip]. rewrite S3. cbn [rstrip]. rewrite S0.
  split; reflexivity.
Qed.

Lemma strptime_date_only_rejects_time d :
  valid_datetime d -> microsecond d = 0 ->
  strptime (Datetime.isoformat d) "%Y-%m-%d" = Raise ValueError.
Proof.
  intros V U. unfold strptime.
  change (pattern "%Y-%m-%d") with (Ret (date_items ++ [])%list).
  cbn [obind]. rewrite (isoformat_split d U).
  destruct (hd_cons _ _ (date_head d [] (time_text d) [] (time_text d) V
                           eq_refl)) as (ms & ->).
  reflexivity.
Qed.

Lemma strptime_date_time d :
  valid_datetime d -> microsecond d = 0 ->
  strptime (Datetime.isoformat d) "%Y-%m-%dT%H:%M:%S" = Ret d.
Proof.
  intros V U. unfold strptime.
  change (pattern "%Y-%m-%dT%H:%M:%S")
    with (Ret (date_items ++ time_items ++ [])%list).
  cbn [obind]. rewrite (isoformat_split d U).
  pose proof (date_head d (time_items ++ [])%list (time_text d ++ "")
                (time_groups d ++ [])%list "" V
                (time_head d [] "" [] "" V eq_refl)) as Hd.
  rewrite append_nil_r in Hd.
  destruct (hd_cons _ _ Hd) as (ms & ->). cbn [truthy].
  rewrite app_nil_r, (set_date_groups d default_parts (time_groups d) V),
    (set_time_groups d _ V).
  cbn [obind p_year p_month p_day p_hour p_minute p_second].
  apply new_of_valid; assumption.
Qed.

Lemma strptime_date_only d :
  valid_datetime d ->
  strptime (date_text d) "%Y-%m-%d"
  = Ret (mkDatetime (year d) (month d) (day d) 0 0 0 0).
Proof.
  intros V. unfold strptime.
  change (pattern "%Y-%m-%d") with (Ret (date_items ++ [])%list).
  cbn [obind].
  pose proof (date_head d [] "" [] "" V eq_refl) as Hd.
  rewrite append_nil_r in Hd.
  destruct (hd_cons _ _ Hd) as (ms & ->). cbn [truthy].
  rewrite (set_date_groups d default_parts [] V).
  cbn [set_groups obind p_year p_month p_day p_hour p_minute p_second
       default_parts].
  apply (new_of_valid (mkDatetime (year d) (month d) (day d) 0 0 0 0));
    [|reflexivity].
  destruct V as (Hy & Hm & Hdd & _).
  unfold valid_datetime. simpl. repeat split; try assumption; lia.
Qed.

(** X12.  ISO texts are read back: for every calendar date and time
    without microseconds, [_parse_date] applied to its [isoformat] text
    [YYYY-MM-DDTHH:MM:SS] returns that very date and time.  The first
    format, [%Y-%m-%d], rejects the text and the second one reads it. *)
Theorem iso_text_is_read_back (d : datetime) :
  valid_datetime d -> microsecond d = 0 ->
  _parse_date (Datetime.isoformat d) = Ret (Some d).
Proof.
  intros V U. unfold _parse_date.
  destruct (iso_strip d U) as (-> & ->). cbn [negb].
  unfold date_formats. cbn [try_formats].
  rewrite (strptime_date_only_rejects_time d V U). cbn [is_ValueError].
  rewrite (strptime_date_time d V U). reflexivity.
Qed.

Lemma iso_text_is_read_back_witness :
  Datetime.isoformat (mkDatetime 2024 2 29 13 5 9 0) = "2024-02-29T13:05:09"
  /\ _parse_date "2024-02-29T13:05:09"
     = Ret (Some (mkDatetime 2024 2 29 13 5 9 0)).
Proof.
  split; [reflexivity|].
  apply (iso_text_is_read_back (mkDatetime 2024 2 29 13 5 9 0));
    [|reflexivity].
  unfold valid_datetime; simpl; repeat split; apply Z.leb_le; reflexivity.
Defined.

(** X13.  An ISO calendar date [YYYY-MM-DD] is read as midnight of that
    day, for every day that exists. *)
Theorem iso_date_is_read_as_midnight (y m dd : Z) :
  1 <= y <= 9999 -> 1 <= m <= 12 ->
  1 <= dd <= Datetime.days_in_month y m ->
  _parse_date (Datetime.pad_dec 4 y ++ "-" ++ Datetime.pad_dec 2 m ++ "-"
               ++ Datetime.pad_dec 2 dd)
  = Ret (Some (mkDatetime y m dd 0 0 0 0)).
Proof.
  intros Hy Hm Hd.
  set (d := mkDatetime y m dd 0 0 0 0).
  assert (valid_datetime d) as V
    by (unfold valid_datetime; simpl; repeat split; try assumption; lia).
  change (_parse_date (date_text d) = Ret (Some d)).
  unfold _parse_date. destruct (date_strip d) as (-> & ->). cbn [negb].
  unfold date_formats. cbn [try_formats].
  rewrite (strptime_date_only d V). reflexivity.
Qed.

Lemma iso_date_is_read_as_midnight_witness :
  _parse_date "2024-01-01" = Ret (Some (mkDatetime 2024 1 1 0 0 0 0)).
Proof.
  apply (iso_date_is_read_as_midnight 2024 1 1);
    split; apply Z.leb_le; reflexivity.
Defined.

End IsoProps.

(** ** The report *)

Module ReportProps.
Import PyStr Soup World BlogScraper ScanFacts ReportGenerator.

(** The heading of a post and the heading of a company. *)
Definition post_heading (post : Dict.dict value) : string :=
  "### " ++ format_value (post_get "title" (VStr "Untitled") post).

Definition company_heading (company : string) : string := "## " ++ company.

(** The posts of every company, in the order of the report. *)
Definition all_posts (scraped_data : Dict.dict (list (Dict.dict value)))
  : list (Dict.dict value) :=
  flat_map snd scraped_data.

Lemma filter_flat_map {A B : Type} (f : B -> bool) (g : A -> list B) l :
  filter f (flat_map g l) = flat_map (fun x => filter f (g x)) l.
Proof.
  induction l as [|x l IH]; simpl; [reflexivity|].
  rewrite filter_app, IH. reflexivity.
Qed.

Lemma flat_map_nil {A B : Type} (g : A -> list B) l :
  (forall x, g x = []) -> flat_map g l = [].
Proof.
  intros H. induction l as [|x l IH]; simpl; [reflexivity|].
  rewrite H, IH. reflexivity.
Qed.

Lemma flat_map_singleton {A B : Type} (g : A -> list B) (h : A -> B) l :
  (forall x, g x = [h x]) -> flat_map g l = map h l.
Proof.
  intros H. induction l as [|x l IH]; simpl; [reflexivity|].
  rewrite H, IH. reflexivity.
Qed.

(** The entries of a post hold its heading and no company heading. *)
Lemma post_entries_level2 post :
  filter (startswith "## ") (post_entries post) = [].
Proof.
  unfold post_entries.
  destruct (truth (post_get "date" VNone post)),
           (truth (post_get "url" VNone post)),
           (truth (post_get "summary" VNone post)); reflexivity.
Qed.

Lemma post_entries_level3 post :
  filter (startswith "### ") (post_entries post) = [post_heading post].
Proof.
  unfold post_entries, post_heading.
  destruct (truth (post_get "date" VNone post)),
           (truth (post_get "url" VNone post)),
           (truth (post_get "summary" VNone post)); reflexivity.
Qed.

Lemma company_entries_level2 company posts :
  filter (startswith "## ") (company_entries company posts)
  = [company_heading company].
Proof.
  unfold company_entries, company_heading.
  destruct posts as [|p ps]; [reflexivity|].
  cbv zeta. rewrite !filter_app, filter_flat_map.
  rewrite (flat_map_nil _ _ post_entries_level2). reflexivity.
Qed.

Lemma company_entries_level3 company posts :
  filter (startswith "### ") (company_entries company posts)
  = map post_heading posts.
Proof.
  unfold company_entries.
  destruct posts as [|p ps]; [reflexivity|].
  cbv zeta. rewrite !filter_app, filter_flat_map.
  rewrite (flat_map_singleton _ _ _ post_entries_level3). reflexivity.
Qed.

Lemma map_flat_map {A B C : Type} (h : B -> C) (g : A -> list B) l :
  map h (flat_map g l) = flat_map (fun x => map h (g x)) l.
Proof.
  induction l as [|x l IH]; simpl; [reflexivity|].
  rewrite map_app, IH. reflexivity.
Qed.

Lemma total_posts_from acc scraped_data :
  fold_left (fun a (kv : string * list (Dict.dict value)) =>
               a + Z.of_nat (List.length (snd kv))) scraped_data acc
  = acc + Z.of_nat (List.length (all_posts scraped_data)).
Proof.
  revert acc. induction scraped_data as [|[c ps] sd IH]; intros acc; simpl.
  - lia.
  - rewrite IH. unfold all_posts. rewrite length_app. lia.
Qed.

(** X14.  The second-level headings among the entries of the report are
    [## Summary] followed by one heading per company, in the order of the
    dictionary; a company without posts has its heading too, and no title,
    link or summary of a post is taken for one. *)
Theorem report_has_one_section_per_company
    (scraped_data : Dict.dict (list (Dict.dict value))) (date : datetime) :
  filter (startswith "## ") (content scraped_data date)
  = "## Summary" :: map company_heading (Dict.keys scraped_data).
Proof.
  unfold content. cbv zeta. rewrite !filter_app, filter_flat_map.
  rewrite (flat_map_singleton _ (fun kv => company_heading (fst kv)))
    by (intros [c ps]; apply company_entries_level2).
  unfold Dict.keys. rewrite map_map.
  cbn [filter startswith Ascii.eqb Bool.eqb andb app append].
  rewrite app_nil_r. reflexivity.
Qed.

(** X15.  The third-level headings among the entries of the report are
    the headings of the posts, one per post in the order of the data, and
    the number written on the line [Total posts analyzed] is their
    number. *)
Theorem report_has_one_heading_per_post
    (scraped_data : Dict.dict (list (Dict.dict value))) (date : datetime) :
  filter (startswith "### ") (content scraped_data date)
  = map post_heading (all_posts scraped_data)
  /\ total_posts scraped_data
     = Z.of_nat (List.length
                   (filter (startswith "### ") (content scraped_data date))).
Proof.
  assert (filter (startswith "### ") (content scraped_data date)
          = map post_heading (all_posts scraped_data)) as E.
  { unfold content. cbv zeta. rewrite !filter_app, filter_flat_map.
    cbn [filter startswith Ascii.eqb Bool.eqb andb app append].
    rewrite app_nil_r. unfold all_posts. rewrite map_flat_map.
    apply flat_map_ext. intros [c ps]. apply company_entries_level3. }
  split; [exact E|].
  rewrite E, length_map. unfold total_posts.
  rewrite total_posts_from. lia.
Qed.

Lemma summary_of_truthy element : truthy (summary_of element) = true.
Proof.
  unfold summary_of. destruct (summary_element element) as [se|];
    [|reflexivity].
  destruct (take 200 (strip (get_text se))); reflexivity.
Qed.

(** X16.  A post returned by [_extract_post_info] is reported with its
    own title and summary: the report never falls back to [Untitled] or to
    [*No summary available*] for it.  The date line is written when the
    post has a date, as [str] of the [datetime], and the link line when
    its URL is not empty. *)
Theorem scraped_post_is_reported_without_fallback
    (element : node) (base_url company_ : string) (w w' : world) (p : post) :
  _extract_post_info element base_url company_ w = (Ret (Some p), w') ->
  post_entries (as_dict p)
  = (["### " ++ title p]%string
     ++ match date p with
        | Some d => ["**Date:** " ++ str_datetime d]%string
        | None => []
        end
     ++ (if truthy (url p)
         then ["**Link:** [" ++ url p ++ "](" ++ url p ++ ")"]%string
         else [])
     ++ ["**Summary:** " ++ summary p; ""]%string)%list.
Proof.
  intros He. apply extract_inv in He. destruct He as (_ & _ & Hs & _).
  pose proof (summary_of_truthy element) as T. rewrite <- Hs in T.
  unfold post_entries, as_dict, post_get. cbn [Dict.get String.eqb Ascii.eqb
    Bool.eqb andb truth format_value].
  rewrite T. destruct (date p), (truthy (url p)); reflexivity.
Qed.

Definition dated_article : node :=
  Tag "article" []
    [Tag "h2" [] [Tag "a" [("href", "/posts/1")]
                    [NavigableString "A Dated Article"]];
     Tag "span" [("class", "date")] [NavigableString "2026-11-03"];
     Tag "p" [] [NavigableString "What happened."]].

Definition noon_world : world :=
  mkWorld (fun n => mkDatetime 2026 11 4 12 0 (Z.of_nat n) 0) 0
          (fun _ _ => Raise ConnectionError) 0 0
          (fun _ _ => Ret tt).

Definition dated_post : post :=
  mkPost "A Dated Article" "https://site.test/posts/1"
         (Some (mkDatetime 2026 11 3 0 0 0 0)) "What happened...."
         "Site.Test" "2026-11-04T12:00:00".

Lemma scraped_post_is_reported_without_fallback_witness :
  fst (_extract_post_info dated_article "https://site.test/blog"
                          "Site.Test" noon_world) = Ret (Some dated_post)
  /\ post_entries (as_dict dated_post)
     = ["### A Dated Article";
        "**Date:** 2026-11-03 00:00:00";
        "**Link:** [https://site.test/posts/1](https://site.test/posts/1)";
        "**Summary:** What happened....";
        ""].
Proof.
  assert (_extract_post_info dated_article "https://site.test/blog"
                             "Site.Test" noon_world
          = (Ret (Some dated_post), tick noon_world)) as E
    by (vm_compute; reflexivity).
  split; [rewrite E; reflexivity|].
  rewrite (scraped_post_is_reported_without_fallback _ _ _ _ _ _ E).
  reflexivity.
Defined.

End ReportProps.
